(** * katpool-payment: startup and lifecycle orchestration ([src/index.ts])

    A shallow embedding of the entry script of the katpool payment app:
    the environment checks, the derivation of [paymentInterval], the RPC
    connection and readiness check, the construction of the transaction
    manager, the scheduled balance transfer and the progress indicator.

    The script is a sequence of top-level statements that may throw, that
    mutate two module variables ([transactionManager], [rpcConnected]) and
    that talk to collaborators which are not part of the file (the RPC client,
    the transaction manager, the monitoring logger, node-cron).  It is
    modelled in a small state-and-exception monad: the state carries the two
    module variables and the trace of observable calls; the collaborators'
    answers are read from a [World] record.

    Conventions.  [rpc.connect()], [rpc.getServerInfo()], [new trxManager]
    and [transferBalances()] return or throw as the world says; the logger
    and the constructor of the RPC client return normally.  Numbers are
    exact rationals, printed as the nearest double prints.  Awaited calls
    are run to completion in program order; timer callbacks run one after
    the other, after the module body. *)

From Stdlib Require Import String Ascii List Bool ZArith QArith Qround Lia.
From Stdlib Require Import DecimalString.
From Stdlib Require Import Lqa.
Import ListNotations.

Local Open Scope string_scope.

(* ===================================================================== *)
(** ** JavaScript values the script manipulates *)
(* ===================================================================== *)

Module Js.

(** An error object as far as the script observes it: the constructor's
    name and the message. *)
Record exn : Type := mk_exn { exn_name : string; exn_message : string }.

Definition Error (msg : string) : exn := mk_exn "Error" msg.
Definition TypeError (msg : string) : exn := mk_exn "TypeError" msg.

(** [`${e}`], that is [Error.prototype.toString]: the name alone when the
    message is empty, the message alone when the name is empty, and
    [name: message] otherwise. *)
Definition exn_to_string (e : exn) : string :=
  if String.eqb (exn_name e) "" then exn_message e
  else if String.eqb (exn_message e) "" then exn_name e
  else exn_name e ++ ": " ++ exn_message e.

(** How a call ends: it returns a value or it throws. *)
Inductive completion (A : Type) : Type :=
| Normal (a : A)
| Throw (e : exn).
Arguments Normal {A} a.
Arguments Throw {A} e.

(** [!!v] for [v : string | undefined]: [undefined] and the empty string
    are falsy. *)
Definition truthy (v : option string) : bool :=
  match v with
  | None => false
  | Some s => negb (String.eqb s "")
  end.

(** Numbers.  The script only divides 24 by the configured count, takes a
    remainder of an hour by the result, and multiplies, subtracts and
    compares; they are modelled as exact rationals. *)
Definition number : Type := Q.

(** [v || d] for [v : number | undefined]: [undefined] and [0] are falsy. *)
Definition or_default (v : option number) (d : number) : number :=
  match v with
  | None => d
  | Some q => if Qeq_bool q 0 then d else q
  end.

(** Truncation towards zero. *)
Definition trunc (q : number) : Z := Z.quot (Qnum q) (Zpos (Qden q)).

(** [a % b] for [b] other than 0: the remainder takes the sign of the
    dividend, [a - b * trunc (a / b)]. *)
Definition rem (a b : number) : number :=
  (a - b * inject_Z (trunc (a / b)))%Q.

(** [a < b] on numbers. *)
Definition lt (a b : number) : bool := negb (Qle_bool b a).

(** [a === b] on numbers. *)
Definition strict_eq (a b : number) : bool := Qeq_bool a b.

(** A number is an integer when it equals its floor. *)
Definition is_integer (q : number) : Prop := (q == inject_Z (Qfloor q))%Q.

(** Template literals: literal chunks and interpolated numbers. *)
Inductive piece : Type :=
| Str (s : string)
| Num (n : number).

Definition text : Type := list piece.

(** Decimal digits of an integer. *)
Definition string_of_Z (n : Z) : string :=
  NilZero.string_of_int (Z.to_int n).

(** *** Printing a number

    An interpolated number is printed as [Number::toString] prints the
    double nearest to it: the shortest digits that read back as that
    double, with the decimal point placed among them. *)

(** [floor (log2 q)] for positive [q]. *)
Definition log2_floor (q : Q) : Z :=
  let e := (Z.log2 (Qnum q) - Z.log2 (Zpos (Qden q)))%Z in
  if Qle_bool (Qpower 2 e) q then e else (e - 1)%Z.

(** The nearest integer, ties to even. *)
Definition round_even (q : Q) : Z :=
  let f := Qfloor q in
  match Qcompare (q - inject_Z f) (1 # 2) with
  | Lt => f
  | Gt => (f + 1)%Z
  | Eq => if Z.even f then f else (f + 1)%Z
  end.

(** The double nearest to a positive [q] in the range of normal doubles:
    53 significant bits, ties to even. *)
Definition to_double (q : Q) : option Q :=
  let e := log2_floor q in
  if ((-1022 <=? e) && (e <? 1023))%Z
  then let ulp := Qpower 2 (e - 52) in
       Some (Qred (inject_Z (round_even (q / ulp)) * ulp))
  else None.

(** The decimal [q] reads back as the double [x]. *)
Definition reads_as (x q : Q) : bool :=
  match to_double q with
  | Some y => Qeq_bool x y
  | None => false
  end.

(** The [n] with [10^(n-1) <= x < 10^n] for a positive [x], looked up
    from [n = -6] to [n = 21]. *)
Definition decimal_exponent (x : Q) : option Z :=
  if Qle_bool (Qpower 10 (-7)) x
  then find (fun n => negb (Qle_bool (Qpower 10 n) x))
            (map (fun i => (Z.of_nat i - 6)%Z) (seq 0 28))
  else None.

(** The [k]-digit integer [s] for which [s * 10^(n-k)] reads back as [x],
    the nearer to [x] if there are two. *)
Definition digits_of_length (x : Q) (n k : Z) : option Z :=
  let scale := Qpower 10 (n - k) in
  let lo := Qfloor (x / scale) in
  let hi := (lo + 1)%Z in
  let ok s := ((10 ^ (k - 1) <=? s) && (s <? 10 ^ k))%Z
              && reads_as x (inject_Z s * scale) in
  match ok lo, ok hi with
  | true, true =>
      if Qle_bool (x - inject_Z lo * scale) (inject_Z hi * scale - x)
      then Some lo else Some hi
  | true, false => Some lo
  | false, true => Some hi
  | false, false => None
  end.

(** The shortest digits: the least number [k] of digits, from [k] on and
    at most [fuel] lengths further, that has some; 17 digits always do. *)
Fixpoint shortest_digits (x : Q) (n k : Z) (fuel : nat) : option (Z * Z) :=
  match fuel with
  | O => None
  | S fuel' =>
      match digits_of_length x n k with
      | Some s => Some (k, s)
      | None => shortest_digits x n (k + 1)%Z fuel'
      end
  end.

Fixpoint zeros (m : nat) : string :=
  match m with
  | O => EmptyString
  | S m' => String "0" (zeros m')
  end.

(** The [k] digits of [s] with the decimal point after the first [n]. *)
Definition place_point (s k n : Z) : string :=
  let d := string_of_Z s in
  if (k <=? n)%Z then d ++ zeros (Z.to_nat (n - k))
  else if (0 <? n)%Z
       then substring 0 (Z.to_nat n) d ++ "." ++
            substring (Z.to_nat n) (Z.to_nat (k - n)) d
       else "0." ++ zeros (Z.to_nat (- n)) ++ d.

(** A positive number; [None] where the double is not normal or prints
    with an exponent (below 1e-6, from 1e21 on). *)
Definition positive_to_string (q : Q) : option string :=
  match to_double q with
  | None => None
  | Some x =>
      match decimal_exponent x with
      | None => None
      | Some n0 =>
          let found :=
            if reads_as x (Qpower 10 n0)
            then Some (1, 1, n0 + 1)%Z
            else match shortest_digits x n0 1 17 with
                 | Some (k, s) => Some (k, s, n0)
                 | None => None
                 end in
          match found with
          | Some (k, s, n) =>
              if ((-6 <? n) && (n <=? 21))%Z
              then Some (place_point s k n)
              else None
          | None => None
          end
      end
  end.

(** [String(q)]. *)
Definition number_to_string (q : number) : option string :=
  match Qcompare q 0 with
  | Eq => Some "0"
  | Gt => positive_to_string (Qred q)
  | Lt => option_map (fun s => "-" ++ s) (positive_to_string (Qred (- q)))
  end.

(** Rendering of a template. *)
Fixpoint render (t : text) : option string :=
  match t with
  | [] => Some ""
  | Str s :: t' => option_map (fun r => s ++ r) (render t')
  | Num n :: t' =>
      match number_to_string n with
      | Some d => option_map (fun r => d ++ r) (render t')
      | None => None
      end
  end.

End Js.

Import Js.

(* ===================================================================== *)
(** ** The collaborators and the process *)
(* ===================================================================== *)

(** The snapshot [rpc.getServerInfo()] answers with; the script reads two
    of its fields. *)
Record ServerInfo : Type := mkServerInfo {
  isSynced : bool;
  hasUtxoIndex : bool
}.

(** A [trxManager] instance: what the constructor was given (the RPC client
    is the single module-level [rpc]). *)
Record trxManager : Type := mkTrxManager {
  tm_network : string;
  tm_privateKey : string;
  tm_databaseUrl : string
}.

(** What the script reads from outside, and how each collaborator answers
    when it is called. *)
Record World : Type := mkWorld {
  (** [process.env.DEBUG], read before [dotenv.config()] *)
  env_DEBUG : option string;
  (** [process.env.*] as read after [dotenv.config()] *)
  env_TREASURY_PRIVATE_KEY : option string;
  env_PUSHGATEWAY : option string;
  env_DATABASE_URL : option string;
  (** [config.json] *)
  config_network : option string;
  config_payoutsPerDay : option number;
  config_node : string;
  (** the answers of [rpc.connect()], [rpc.getServerInfo()] and
      [new trxManager(...)] ([Some e]: the constructor throws [e]) *)
  rpc_connect : completion unit;
  rpc_getServerInfo : completion ServerInfo;
  trxManager_new : option exn
}.

(** Observable calls, in program order. *)
Inductive event : Type :=
| Log (msg : text)                               (* monitoring.log *)
| Debug (msg : text)                             (* monitoring.debug *)
| ErrorLog (msg : text)                          (* monitoring.error *)
| NewRpcClient (networkId : string)              (* new RpcClient({...}) *)
| RpcConnect (r : completion unit)               (* rpc.connect() *)
| RpcGetServerInfo (r : completion ServerInfo)   (* rpc.getServerInfo() *)
| NewTrxManager (tm : trxManager) (r : option exn)  (* new trxManager(...) *)
| CronSchedule (expression : text)               (* cron.schedule(expr, cb) *)
| SetInterval (ms : Z)                           (* setInterval(cb, ms) *)
| TransferBalances (tm : trxManager) (r : completion unit).
                                       (* transactionManager.transferBalances() *)

(** The module variables and the trace. *)
Record proc : Type := mkProc {
  trace : list event;
  transactionManager : option trxManager;
  rpcConnected : bool
}.

(** [let transactionManager = null; let rpcConnected = false;] *)
Definition proc0 : proc := mkProc [] None false.

(* ===================================================================== *)
(** ** The monad *)
(* ===================================================================== *)

Definition M (A : Type) : Type := proc -> proc * completion A.

Definition ret {A} (a : A) : M A := fun p => (p, Normal a).

Definition bind {A B} (c : M A) (k : A -> M B) : M B :=
  fun p =>
    match c p with
    | (p', Normal a) => k a p'
    | (p', Throw e) => (p', Throw e)
    end.

Definition throw {A} (e : exn) : M A := fun p => (p, Throw e).

(** [try { c } catch (e) { h e }] *)
Definition try_catch {A} (c : M A) (h : exn -> M A) : M A :=
  fun p =>
    match c p with
    | (p', Normal a) => (p', Normal a)
    | (p', Throw e) => h e p'
    end.

Declare Scope js_scope.
Delimit Scope js_scope with js.
Notation "x <- c ;; k" := (bind c (fun x => k))
  (at level 61, c at next level, right associativity) : js_scope.
Notation "c ;; k" := (bind c (fun _ => k))
  (at level 61, right associativity) : js_scope.
Local Open Scope js_scope.

(** Record an observable call. *)
Definition emit (e : event) : M unit :=
  fun p => (mkProc (trace p ++ [e]) (transactionManager p) (rpcConnected p),
            Normal tt).

(** Call a collaborator: the call is recorded and ends as the world says. *)
Definition extern {A} (e : event) (r : completion A) : M A :=
  fun p => (mkProc (trace p ++ [e]) (transactionManager p) (rpcConnected p), r).

Definition set_transactionManager (tm : trxManager) : M unit :=
  fun p => (mkProc (trace p) (Some tm) (rpcConnected p), Normal tt).

Definition set_rpcConnected (b : bool) : M unit :=
  fun p => (mkProc (trace p) (transactionManager p) b, Normal tt).

Definition get_transactionManager : M (option trxManager) :=
  fun p => (p, Normal (transactionManager p)).

Definition get_rpcConnected : M bool :=
  fun p => (p, Normal (rpcConnected p)).

(** [if (b) c;] *)
Definition when (b : bool) (c : M unit) : M unit :=
  if b then c else ret tt.

(* ===================================================================== *)
(** ** The script, top to bottom *)
(* ===================================================================== *)

Section Script.

Variable w : World.

(** [export let DEBUG = 0; if (process.env.DEBUG === "1") DEBUG = 1;] *)
Definition DEBUG : bool :=
  match env_DEBUG w with
  | Some s => String.eqb s "1"
  | None => false
  end.

Definition log (s : string) : M unit := emit (Log [Str s]).
Definition debug (t : text) : M unit := when DEBUG (emit (Debug t)).
Definition error (t : text) : M unit := emit (ErrorLog t).

(** [const v = ...; if (!v) throw new Error(msg);] leaves [v] a non-empty
    string. *)
Definition check_set (v : option string) (msg : string) : M string :=
  if truthy v
  then match v with Some s => ret s | None => throw (Error msg) end
  else throw (Error msg).

Definition msg_TREASURY_PRIVATE_KEY : string :=
  "Environment variable TREASURY_PRIVATE_KEY is not set.".
Definition msg_network : string :=
  "No network has been set in config.json".
Definition msg_PUSHGATEWAY : string :=
  "Environment variable PUSHGATEWAY is not set.".
Definition msg_DATABASE_URL : string :=
  "Environment variable DATABASE_URL is not set.".
Definition msg_paymentInterval : string :=
  "paymentInterval must be between 1 and 24 hours.".
Definition msg_connection : string :=
  "RPC connection error".
Definition msg_not_ready : string :=
  "Provided node is either not synchronized or lacks the UTXO index.".

(** The values the checks leave in scope. *)
Record settings : Type := mkSettings {
  treasuryPrivateKey : string;
  network : string;
  katpoolPshGw : string;
  databaseUrl : string
}.

(** Lines 28-49: the environment variable checks. *)
Definition environment_checks : M settings :=
  key <- check_set (env_TREASURY_PRIVATE_KEY w) msg_TREASURY_PRIVATE_KEY ;;
  debug [Str "Main: Obtained treasury private key"] ;;
  net <- check_set (config_network w) msg_network ;;
  debug [Str "Main: Network Id: "; Str net] ;;
  gw <- check_set (env_PUSHGATEWAY w) msg_PUSHGATEWAY ;;
  debug [Str "Main: PushGateway URL obtained"] ;;
  db <- check_set (env_DATABASE_URL w) msg_DATABASE_URL ;;
  debug [Str "Main: Database URL obtained"] ;;
  ret (mkSettings key net gw db).

(** Lines 52-53. *)
Definition payoutsPerDay : number := or_default (config_payoutsPerDay w) 2.
Definition paymentInterval : number := (24 / payoutsPerDay)%Q.

(** [paymentInterval < 1 || paymentInterval > 24] *)
Definition out_of_range (i : number) : bool :=
  lt i 1 || lt 24 i.

(** Lines 54-57. *)
Definition configuration_parameters : M unit :=
  (if out_of_range paymentInterval
   then throw (Error msg_paymentInterval)
   else ret tt) ;;
  debug [Str "Main: Payment interval set to "; Num paymentInterval;
         Str " hours"].

(** Lines 60-71: the RPC client is created, nothing is sent yet. *)
Definition setup_rpc (s : settings) : M unit :=
  debug [Str "Main: Setting up RPC client"] ;;
  debug [Str "Main: Resolver Options:"; Str (config_node w)] ;;
  emit (NewRpcClient (network s)).

(** Lines 75-78. *)
Definition setupTransactionManager (s : settings) : M unit :=
  debug [Str "Main: Starting transaction manager"] ;;
  let tm := mkTrxManager (network s) (treasuryPrivateKey s) (databaseUrl s) in
  match trxManager_new w with
  | Some e => extern (NewTrxManager tm (Some e)) (Throw e)
  | None => extern (NewTrxManager tm None) (Normal tt) ;;
            set_transactionManager tm
  end.

(** Lines 80-93. *)
Definition startRpcConnection : M unit :=
  debug [Str "Main: Starting RPC connection"] ;;
  try_catch (extern (RpcConnect (rpc_connect w)) (rpc_connect w))
            (fun _ => throw (Error msg_connection)) ;;
  serverInfo <- extern (RpcGetServerInfo (rpc_getServerInfo w))
                       (rpc_getServerInfo w) ;;
  (if negb (isSynced serverInfo) || negb (hasUtxoIndex serverInfo)
   then throw (Error msg_not_ready)
   else ret tt) ;;
  set_rpcConnected true.

(** Lines 95-100. *)
Definition connect_and_setup (s : settings) : M unit :=
  connected <- get_rpcConnected ;;
  if negb connected
  then
    startRpcConnection ;;
    debug [Str "Main: RPC connection started"] ;;
    debug [Str "Main: RPC connection established"] ;;
    setupTransactionManager s
  else ret tt.

(** The expression handed to [cron.schedule]: [`0 */${paymentInterval} * * *`]. *)
Definition cron_expression : text :=
  [Str "0 */"; Num paymentInterval; Str " * * *"].

(** Lines 103-130: the two timers are registered; their callbacks run later. *)
Definition register_timers : M unit :=
  emit (CronSchedule cron_expression) ;;
  emit (SetInterval (10 * 60 * 1000)) ;;
  emit (Log [Str "Main: Scheduled balance transfer every ";
             Num paymentInterval; Str " hours"]).

(** The module body. *)
Definition main : M unit :=
  log "Main: Starting katpool Payment App" ;;
  s <- environment_checks ;;
  configuration_parameters ;;
  setup_rpc s ;;
  connect_and_setup s ;;
  register_timers.

(** *** The callbacks *)

Definition msg_null_deref : string :=
  "Cannot read properties of null (reading 'transferBalances')".

(** [transactionManager!.transferBalances()]: on [null] the property access
    throws a [TypeError]; otherwise the collaborator is called and ends as
    [r] says. *)
Definition call_transferBalances (r : completion unit) : M unit :=
  tm <- get_transactionManager ;;
  match tm with
  | None => throw (TypeError msg_null_deref)
  | Some m => extern (TransferBalances m r) r
  end.

(** Lines 103-115: the scheduled callback; [r] is how [transferBalances()]
    ends in this firing if it is called. *)
Definition scheduled_callback (r : completion unit) : M unit :=
  connected <- get_rpcConnected ;;
  if connected
  then
    log "Main: Running scheduled balance transfer" ;;
    try_catch (call_transferBalances r)
      (fun transactionError =>
         error [Str "Main: Transaction manager error: ";
                Str (exn_to_string transactionError)])
  else
    error [Str "Main: RPC connection is not established before balance transfer"].

(** Lines 119-125, for [now.getHours() = hours], [now.getMinutes() = minutes]. *)
Definition nextTransferHours (hours : Z) : number :=
  (paymentInterval - rem (inject_Z hours) paymentInterval)%Q.

Definition remainingMinutes (hours minutes : Z) : number :=
  (nextTransferHours hours * 60 - inject_Z minutes)%Q.

Definition remainingTime (hours minutes : Z) : number :=
  if strict_eq (remainingMinutes hours minutes) (nextTransferHours hours * 60)%Q
  then 0%Q
  else remainingMinutes hours minutes.

(** Lines 118-128: the progress indicator. *)
Definition progress_callback (hours minutes : Z) : M unit :=
  debug [Str "Main: "; Num (remainingTime hours minutes);
         Str " minutes until the next balance transfer"].

(** *** The process: the module body, then timer firings *)

Inductive firing : Type :=
| Scheduled (r : completion unit)     (* the cron callback fires *)
| Progress (hours minutes : Z).       (* the 10-minute timer fires *)

Definition fire (f : firing) : M unit :=
  match f with
  | Scheduled r => scheduled_callback r
  | Progress h m => progress_callback h m
  end.

Fixpoint event_loop (fs : list firing) : M unit :=
  match fs with
  | [] => ret tt
  | f :: fs' => fire f ;; event_loop fs'
  end.

(** A run of the process: timers fire only once the module body has
    completed; an exception that escapes ends the run. *)
Definition process (fs : list firing) : M unit :=
  main ;; event_loop fs.

End Script.

(** The module body (or a callback) threw and nothing caught it: Node
    prints the error and exits with status 1.  While the timers are
    registered the process stays alive and has no exit status. *)
Definition exit_status {A} (r : completion A) : option Z :=
  match r with
  | Normal _ => None
  | Throw _ => Some 1%Z
  end.

Definition run (w : World) (fs : list firing) : proc * completion unit :=
  process w fs proc0.

Definition startup (w : World) : proc * completion unit :=
  main w proc0.

(* ===================================================================== *)
(** ** The schedule behind [cron.schedule] *)
(* ===================================================================== *)

Module Cron.

(** Modelled from the spec: node-cron, which interprets the expression
    handed to [cron.schedule], is not in the source.  The spec describes a
    cron-style fixed wall-clock schedule; a field of such an expression is
    [*], a number, or [*/step], which selects the values of the field's
    range that are [step] apart starting from its lower end. *)
Inductive field : Type :=
| Any
| Exactly (n : Z)
| Every (step : Z).

(** Modelled from the spec: the five fields of a cron expression, in
    order: minute, hour, day of month, month, day of week. *)
Record schedule : Type := mkSchedule {
  minute_field : field;
  hour_field : field;
  day_field : field;
  month_field : field;
  weekday_field : field
}.

(** Modelled from the spec: a wall-clock instant at the resolution of the
    schedule, one minute. *)
Record time : Type := mkTime {
  minute : Z;     (* 0..59 *)
  hour : Z;       (* 0..23 *)
  day : Z;        (* 1..31 *)
  month : Z;      (* 1..12 *)
  weekday : Z     (* 0..6 *)
}.

(** Modelled from the spec: a number in a cron field is a non-empty run
    of decimal digits. *)
Definition parse_number (s : string) : option Z :=
  option_map Z.of_uint (NilZero.uint_of_string s).

(** Modelled from the spec: reading one field; a step must be positive. *)
Definition parse_field (s : string) : option field :=
  match s with
  | "*" => Some Any
  | String "*" (String "/" step) =>
      match parse_number step with
      | Some k => if (0 <? k)%Z then Some (Every k) else None
      | None => None
      end
  | _ => option_map Exactly (parse_number s)
  end.

(** Modelled from the spec: the fields of an expression are separated by
    single spaces. *)
Fixpoint fields (s : string) : list string :=
  match s with
  | EmptyString => [EmptyString]
  | String c s' =>
      if Ascii.eqb c " "
      then EmptyString :: fields s'
      else match fields s' with
           | f :: fs => String c f :: fs
           | [] => [String c EmptyString]
           end
  end.

(** Modelled from the spec: an expression is five readable fields. *)
Definition parse (s : string) : option schedule :=
  match map parse_field (fields s) with
  | [Some mi; Some ho; Some da; Some mo; Some wd] =>
      Some (mkSchedule mi ho da mo wd)
  | _ => None
  end.

(** Modelled from the spec: [matches f lo v] says that the field [f] of a
    range starting at [lo] selects the value [v]. *)
Definition matches (f : field) (lo v : Z) : bool :=
  match f with
  | Any => true
  | Exactly n => (v =? n)%Z
  | Every k => ((v - lo) mod k =? 0)%Z
  end.

(** Modelled from the spec: the job fires at the instants all five fields
    select. *)
Definition fires (s : schedule) (t : time) : bool :=
  matches (minute_field s) 0 (minute t) &&
  matches (hour_field s) 0 (hour t) &&
  matches (day_field s) 1 (day t) &&
  matches (month_field s) 1 (month t) &&
  matches (weekday_field s) 0 (weekday t).

(** Modelled from the spec: whether the job registered with the template
    [expr] fires at [t]; [None] when the rendered string is not a cron
    expression, that is, has a field that is none of [*], a number and
    [*/step] with a whole positive step. *)
Definition fires_at (expr : text) (t : time) : option bool :=
  match render expr with
  | Some s => option_map (fun sch => fires sch t) (parse s)
  | None => None
  end.


End Cron.

(* ===================================================================== *)
(** ** Vocabulary for the properties *)
(* ===================================================================== *)

(** Appending events to the trace leaves the module variables alone. *)
Definition extend (p : proc) (evs : list event) : proc :=
  mkProc (trace p ++ evs) (transactionManager p) (rpcConnected p).

(** *** Kinds of events *)

Definition is_log_line (e : event) : bool :=
  match e with
  | Log _ | Debug _ | ErrorLog _ => true
  | _ => false
  end.

(** What a timer callback can do: write log lines and call
    [transferBalances()]. *)
Definition is_callback_event (e : event) : bool :=
  match e with
  | Log _ | Debug _ | ErrorLog _ | TransferBalances _ _ => true
  | _ => false
  end.

Definition is_transfer (e : event) : bool :=
  match e with
  | TransferBalances _ _ => true
  | _ => false
  end.

(** The transaction manager is constructed or invoked. *)
Definition uses_transaction_manager (e : event) : bool :=
  match e with
  | NewTrxManager _ _ | TransferBalances _ _ => true
  | _ => false
  end.

Definition is_cron_schedule (e : event) : bool :=
  match e with
  | CronSchedule _ => true
  | _ => false
  end.

Definition connect_succeeded (e : event) : bool :=
  match e with
  | RpcConnect (Normal _) => true
  | _ => false
  end.

Definition connect_threw (e : event) : bool :=
  match e with
  | RpcConnect (Throw _) => true
  | _ => false
  end.

(** [rpc.getServerInfo()] returned a snapshot with both flags set. *)
Definition reports_ready (e : event) : bool :=
  match e with
  | RpcGetServerInfo (Normal i) => isSynced i && hasUtxoIndex i
  | _ => false
  end.

(** [rpc.getServerInfo()] returned a snapshot with a flag cleared. *)
Definition reports_not_ready (e : event) : bool :=
  match e with
  | RpcGetServerInfo (Normal i) => negb (isSynced i && hasUtxoIndex i)
  | _ => false
  end.

(** [new trxManager(...)] returned an instance. *)
Definition constructs_manager (e : event) : bool :=
  match e with
  | NewTrxManager _ None => true
  | _ => false
  end.

Definition count_transfers (evs : list event) : nat :=
  List.length (filter is_transfer evs).

(** *** Order in a trace *)

Local Open Scope list_scope.

(** Every [Q]-event of the trace has a [P]-event strictly before it. *)
Definition preceded_by (P Q : event -> bool) (tr : list event) : Prop :=
  forall l1 e l2, tr = l1 ++ e :: l2 -> Q e = true ->
                  exists e', In e' l1 /\ P e' = true.

(** *** The scheduled callback, as a list of events *)

Definition msg_running : text :=
  [Str "Main: Running scheduled balance transfer"].
Definition msg_not_established : text :=
  [Str "Main: RPC connection is not established before balance transfer"].
Definition msg_manager_error (e : exn) : text :=
  [Str "Main: Transaction manager error: "; Str (exn_to_string e)].

(** What one scheduled firing appends to the trace. *)
Definition scheduled_events (p : proc) (r : completion unit) : list event :=
  if rpcConnected p
  then
    Log msg_running ::
    match transactionManager p, r with
    | Some tm, Normal _ => [TransferBalances tm r]
    | Some tm, Throw e => [TransferBalances tm r; ErrorLog (msg_manager_error e)]
    | None, _ => [ErrorLog (msg_manager_error (TypeError msg_null_deref))]
    end
  else [ErrorLog msg_not_established].

(** The state in which a scheduled callback can run safely: an open gate
    comes with a transaction manager. *)
Definition manager_ready (p : proc) : Prop :=
  rpcConnected p = true -> transactionManager p <> None.

(** *** The required inputs *)

Inductive required : Type :=
| TreasuryKey
| Network
| PushGateway
| DatabaseUrl.

Definition value_of (w : World) (i : required) : option string :=
  match i with
  | TreasuryKey => env_TREASURY_PRIVATE_KEY w
  | Network => config_network w
  | PushGateway => env_PUSHGATEWAY w
  | DatabaseUrl => env_DATABASE_URL w
  end.

Definition message_of (i : required) : string :=
  match i with
  | TreasuryKey => msg_TREASURY_PRIVATE_KEY
  | Network => msg_network
  | PushGateway => msg_PUSHGATEWAY
  | DatabaseUrl => msg_DATABASE_URL
  end.

(** The name under which the message refers to the input. *)
Definition name_of (i : required) : string :=
  match i with
  | TreasuryKey => "TREASURY_PRIVATE_KEY"
  | Network => "network"
  | PushGateway => "PUSHGATEWAY"
  | DatabaseUrl => "DATABASE_URL"
  end.

(** Position of the check in the script. *)
Definition position (i : required) : nat :=
  match i with
  | TreasuryKey => 0
  | Network => 1
  | PushGateway => 2
  | DatabaseUrl => 3
  end.

Definition missing (w : World) (i : required) : bool :=
  negb (truthy (value_of w i)).

(** The check that fails first, if any. *)
Definition first_missing (w : World) : option required :=
  if missing w TreasuryKey then Some TreasuryKey
  else if missing w Network then Some Network
  else if missing w PushGateway then Some PushGateway
  else if missing w DatabaseUrl then Some DatabaseUrl
  else None.

Definition mentions (name msg : string) : bool :=
  match String.index 0 name msg with
  | Some _ => true
  | None => false
  end.

(** All four required inputs are set. *)
Definition inputs_set (w : World) : Prop := first_missing w = None.

(** *** The interval as the specification reads it *)

(** The interval derived from a configured count lies outside [1, 24]
    hours; dividing by a count of 0 gives no hour count in the range. *)
Definition interval_outside (count : number) : Prop :=
  (count == 0 \/ 24 / count < 1 \/ 24 < 24 / count)%Q.

(** The instants at which the specification has the scheduler fire: the
    top of an hour that is an exact multiple of the interval. *)
Definition on_multiple (w : World) (t : Cron.time) : bool :=
  (Cron.minute t =? 0)%Z &&
  Qeq_bool (rem (inject_Z (Cron.hour t)) (paymentInterval w)) 0.

(** *** Sample worlds *)

(** A configured node that connects and is ready; [count] is the
    [payoutsPerDay] entry of config.json. *)
Definition world_with (count : option number) (connect : completion unit)
    (info : completion ServerInfo) (manager : option exn) : World :=
  mkWorld (Some "1") (Some "key") (Some "http://pushgateway:9091")
          (Some "postgres://db") (Some "mainnet") count "[]"
          connect info manager.

Definition ready : completion ServerInfo := Normal (mkServerInfo true true).

Definition world_ok : World := world_with (Some 2%Q) (Normal tt) ready None.

Definition world_default : World := world_with None (Normal tt) ready None.

Definition world_zero : World := world_with (Some 0%Q) (Normal tt) ready None.

Definition world_five : World := world_with (Some 5%Q) (Normal tt) ready None.

Definition world_25 : World := world_with (Some 25%Q) (Normal tt) ready None.

Definition world_unsynced : World :=
  world_with (Some 2%Q) (Normal tt) (Normal (mkServerInfo false true)) None.

Definition world_refused : World :=
  world_with (Some 2%Q) (Throw (Error "connect ECONNREFUSED")) ready None.

Definition world_no_database : World :=
  mkWorld None (Some "key") (Some "http://pushgateway:9091") None
          (Some "mainnet") (Some 2%Q) "[]" (Normal tt) ready None.

Definition failed_transfer : completion unit :=
  Throw (Error "insufficient funds").

(** The same without [DEBUG]. *)
Definition world_quiet : World :=
  mkWorld None (Some "key") (Some "http://pushgateway:9091")
          (Some "postgres://db") (Some "mainnet") (Some 2%Q) "[]"
          (Normal tt) ready None.

(** The constructor of the transaction manager throws. *)
Definition world_bad_key : World :=
  world_with (Some 2%Q) (Normal tt) ready (Some (Error "invalid private key")).

(** [rpc.getServerInfo()] throws. *)
Definition world_info_fails : World :=
  world_with (Some 2%Q) (Normal tt) (Throw (Error "request timeout")) None.

(** Monday 2 November, 12:00 and 13:00. *)
Definition noon : Cron.time := Cron.mkTime 0 12 2 11 1.
Definition one_pm : Cron.time := Cron.mkTime 0 13 2 11 1.


(** *** Further vocabulary: counting and the startup sequence *)

Definition is_debug (e : event) : bool :=
  match e with
  | Debug _ => true
  | _ => false
  end.

Definition is_new_client (e : event) : bool :=
  match e with
  | NewRpcClient _ => true
  | _ => false
  end.

(** [rpc.connect()] was called. *)
Definition is_connect (e : event) : bool :=
  match e with
  | RpcConnect _ => true
  | _ => false
  end.

(** [rpc.getServerInfo()] was called. *)
Definition is_server_info (e : event) : bool :=
  match e with
  | RpcGetServerInfo _ => true
  | _ => false
  end.

(** [new trxManager(...)] was called. *)
Definition is_new_manager (e : event) : bool :=
  match e with
  | NewTrxManager _ _ => true
  | _ => false
  end.

Definition is_set_interval (e : event) : bool :=
  match e with
  | SetInterval _ => true
  | _ => false
  end.

(** Number of events of a kind in a trace. *)
Definition count (kind : event -> bool) (tr : list event) : nat :=
  List.length (filter kind tr).

Definition is_scheduled (f : firing) : bool :=
  match f with
  | Scheduled _ => true
  | Progress _ _ => false
  end.

(** Number of firings of the scheduled callback among [fs]. *)
Definition scheduled_firings (fs : list firing) : nat :=
  List.length (filter is_scheduled fs).

(** The errors the script itself creates at startup. *)
Definition script_errors : list exn :=
  [Error msg_TREASURY_PRIVATE_KEY; Error msg_network; Error msg_PUSHGATEWAY;
   Error msg_DATABASE_URL; Error msg_paymentInterval; Error msg_connection;
   Error msg_not_ready].

(** The three calls that end a completed module body (lines 103-130). *)
Definition registration (w : World) : list event :=
  [CronSchedule (cron_expression w);
   SetInterval 600000;
   Log [Str "Main: Scheduled balance transfer every ";
        Num (paymentInterval w); Str " hours"]].

Definition ends_with (suffix tr : list event) : Prop :=
  exists pre, tr = pre ++ suffix.

(** Everything the module body needs to complete. *)
Definition node_ready (w : World) : Prop :=
  exists info, rpc_getServerInfo w = Normal info /\
               isSynced info = true /\ hasUtxoIndex info = true.

Definition can_start (w : World) : Prop :=
  inputs_set w /\
  out_of_range (paymentInterval w) = false /\
  rpc_connect w = Normal tt /\
  node_ready w /\
  trxManager_new w = None.

(** The line the progress indicator writes in debug mode. *)
Definition progress_line (w : World) (hours minutes : Z) : event :=
  Debug [Str "Main: "; Num (remainingTime w hours minutes);
         Str " minutes until the next balance transfer"].

(** *** Log lines and the secrets *)

(** The log lines of a trace, in order. *)
Definition log_lines (tr : list event) : list event := filter is_log_line tr.

(** The same world with other values for the three inputs that come from
    the environment. *)
Definition with_secrets (w : World) (key gateway database : string) : World :=
  mkWorld (env_DEBUG w) (Some key) (Some gateway) (Some database)
          (config_network w) (config_payoutsPerDay w) (config_node w)
          (rpc_connect w) (rpc_getServerInfo w) (trxManager_new w).

(** What one firing appends to the trace. *)
Definition firing_events (w : World) (p : proc) (f : firing) : list event :=
  match f with
  | Scheduled r => scheduled_events p r
  | Progress hours minutes =>
      if DEBUG w then [progress_line w hours minutes] else []
  end.

(* ===================================================================== *)
(** ** Symbolic execution of the script *)
(* ===================================================================== *)

(** The script is straight-line code with early exits: unfolding the monad
    and splitting on what the world answers leaves one concrete trace per
    path. *)
Ltac unfold_script :=
  cbv beta iota zeta delta
    [startup main environment_checks configuration_parameters
     setup_rpc connect_and_setup startRpcConnection setupTransactionManager
     register_timers check_set truthy log debug error when emit extern bind
     ret throw try_catch set_transactionManager set_rpcConnected
     get_rpcConnected get_transactionManager proc0 trace transactionManager
     rpcConnected treasuryPrivateKey network katpoolPshGw databaseUrl
     isSynced hasUtxoIndex app negb orb andb fst snd
     inputs_set first_missing missing value_of].

Ltac split_script :=
  repeat match goal with
    | |- context [match ?x with _ => _ end] =>
        lazymatch x with
        | context [match _ with _ => _ end] => fail
        | _ => destruct x eqn:?
        end
    end;
  repeat match goal with u : unit |- _ => destruct u end.

Ltac exec_script := unfold_script; split_script.
(* ===================================================================== *)
(** ** Lemmas on traces and callbacks *)
(* ===================================================================== *)

Lemma extend_nil p : extend p [] = p.
Proof. destruct p; unfold extend; simpl; now rewrite app_nil_r. Qed.

Lemma extend_extend p l1 l2 : extend (extend p l1) l2 = extend p (l1 ++ l2).
Proof. unfold extend; simpl; now rewrite app_assoc. Qed.

Lemma preceded_nil P Q : preceded_by P Q [].
Proof. intros l1 e l2 H; destruct l1; discriminate. Qed.

Lemma preceded_skip P Q a tr :
  Q a = false -> preceded_by P Q tr -> preceded_by P Q (a :: tr).
Proof.
  intros Ha Htr l1 e l2 H HQ.
  destruct l1 as [|b l1]; simpl in H; injection H as -> ->.
  - congruence.
  - destruct (Htr l1 e l2 eq_refl HQ) as (e' & Hin & HP).
    exists e'; split; [now right | assumption].
Qed.

Lemma preceded_after P Q a tr :
  P a = true -> Q a = false -> preceded_by P Q (a :: tr).
Proof.
  intros HP Ha l1 e l2 H HQ.
  destruct l1 as [|b l1]; simpl in H; injection H as -> ->.
  - congruence.
  - exists b; split; [now left | assumption].
Qed.

Lemma preceded_extend P Q tr evs :
  preceded_by P Q tr -> (exists e, In e tr /\ P e = true) ->
  preceded_by P Q (tr ++ evs).
Proof.
  intros Htr (e0 & Hin0 & HP0) l1 e l2 H HQ.
  apply app_eq_app in H as (l & [(Ht & H) | (Hl & H)]).
  - destruct l as [|b l]; simpl in H.
    + rewrite app_nil_r in Ht; subst l1. exists e0; auto.
    + injection H as <- _. apply (Htr l1 e l Ht HQ).
  - subst l1. exists e0; split; [apply in_or_app; now left | assumption].
Qed.

Lemma preceded_extend_quiet P Q tr evs :
  preceded_by P Q tr -> Forall (fun e => Q e = false) evs ->
  preceded_by P Q (tr ++ evs).
Proof.
  intros Htr HF l1 e l2 H HQ.
  rewrite Forall_forall in HF.
  apply app_eq_app in H as (l & [(Ht & H) | (Hl & H)]).
  - destruct l as [|b l]; simpl in H.
    + rewrite (HF e) in HQ; [discriminate | rewrite <- H; now left].
    + injection H as <- _. apply (Htr l1 e l Ht HQ).
  - rewrite (HF e) in HQ; [discriminate | rewrite H; apply in_elt].
Qed.

(** Decide [preceded_by] on a concrete trace. *)
Ltac solve_preceded :=
  repeat first
    [ apply preceded_nil
    | apply preceded_after; [reflexivity | reflexivity]
    | apply preceded_skip; [reflexivity | ] ].

(** *** The timer callbacks never throw *)

Section Callbacks.

Variable w : World.

Lemma debug_run t p :
  debug w t p = (extend p (if DEBUG w then [Debug t] else []), Normal tt).
Proof.
  unfold debug, when, emit, ret, extend.
  destruct (DEBUG w); [reflexivity | now rewrite app_nil_r; destruct p].
Qed.

Lemma scheduled_callback_run r p :
  scheduled_callback r p = (extend p (scheduled_events p r), Normal tt).
Proof.
  unfold scheduled_callback, scheduled_events, call_transferBalances, log,
    error, emit, extern, get_rpcConnected, get_transactionManager, bind,
    try_catch, throw, extend.
  destruct p as [tr tm rc]; simpl.
  destruct rc; simpl; [|reflexivity].
  destruct tm as [tm|]; simpl.
  - destruct r as [[]|e]; simpl; now rewrite <- !app_assoc.
  - now rewrite <- app_assoc.
Qed.

Lemma scheduled_events_callback p r :
  Forall (fun e => is_callback_event e = true) (scheduled_events p r).
Proof.
  unfold scheduled_events.
  destruct (rpcConnected p), (transactionManager p), r;
    repeat constructor.
Qed.

Lemma fire_run f p :
  exists evs, fire w f p = (extend p evs, Normal tt) /\
              Forall (fun e => is_callback_event e = true) evs.
Proof.
  destruct f as [r|h m]; simpl.
  - exists (scheduled_events p r); split;
      [apply scheduled_callback_run | apply scheduled_events_callback].
  - unfold progress_callback. rewrite debug_run.
    eexists; split; [reflexivity|].
    destruct (DEBUG w); repeat constructor.
Qed.

Lemma event_loop_run fs p :
  exists evs, event_loop w fs p = (extend p evs, Normal tt) /\
              Forall (fun e => is_callback_event e = true) evs.
Proof.
  revert p; induction fs as [|f fs IH]; intros p; simpl.
  - exists []; split; [now rewrite extend_nil | constructor].
  - destruct (fire_run f p) as (l1 & E1 & F1).
    destruct (IH (extend p l1)) as (l2 & E2 & F2).
    exists (l1 ++ l2); split.
    + unfold bind. rewrite E1, E2. now rewrite extend_extend.
    + apply Forall_app; now split.
Qed.

End Callbacks.

(** Callback events are not connection or registration events. *)
Lemma callback_not_cron evs :
  Forall (fun e => is_callback_event e = true) evs ->
  Forall (fun e => is_cron_schedule e = false) evs.
Proof.
  apply Forall_impl. intros [] H; try reflexivity; discriminate.
Qed.

(* ===================================================================== *)
(** ** Lemmas on the module body *)
(* ===================================================================== *)

(** When a required input is missing the body stops at its check, having
    written log lines only. *)
Lemma startup_first_missing w j :
  first_missing w = Some j ->
  snd (startup w) = Throw (Error (message_of j)) /\
  Forall (fun e => is_log_line e = true) (trace (fst (startup w))).
Proof.
  exec_script; intros [= <-]; split; solve [reflexivity | repeat constructor].
Qed.

Lemma first_missing_least w j :
  first_missing w = Some j ->
  missing w j = true /\
  forall k, (position k < position j)%nat -> missing w k = false.
Proof.
  unfold first_missing.
  destruct (missing w TreasuryKey) eqn:E0; [intros [= <-] |
  destruct (missing w Network) eqn:E1; [intros [= <-] |
  destruct (missing w PushGateway) eqn:E2; [intros [= <-] |
  destruct (missing w DatabaseUrl) eqn:E3; [intros [= <-] | discriminate]]]];
  (split; [assumption | intros [] Hk; simpl in Hk; solve [assumption | lia]]).
Qed.

Lemma first_missing_exists w i :
  missing w i = true ->
  exists j, first_missing w = Some j /\ (position j <= position i)%nat.
Proof.
  unfold first_missing. intros Hi.
  destruct (missing w TreasuryKey) eqn:E0;
    [exists TreasuryKey; split; [reflexivity | destruct i; simpl; lia]|].
  destruct (missing w Network) eqn:E1;
    [exists Network; split; [reflexivity | destruct i; simpl; solve [lia | congruence]]|].
  destruct (missing w PushGateway) eqn:E2;
    [exists PushGateway; split; [reflexivity | destruct i; simpl; solve [lia | congruence]]|].
  destruct (missing w DatabaseUrl) eqn:E3;
    [exists DatabaseUrl; split; [reflexivity | destruct i; simpl; solve [lia | congruence]]|].
  destruct i; congruence.
Qed.

Lemma position_inj i j : position i = position j -> i = j.
Proof. destruct i, j; simpl; intros H; solve [reflexivity | discriminate]. Qed.

Ltac solve_exists :=
  repeat first [ apply Exists_cons_hd; reflexivity | apply Exists_cons_tl ].

Ltac solve_forall :=
  repeat first [ apply Forall_nil | apply Forall_cons ].

(** In the trace of the module body the transaction manager is constructed
    only after a successful [connect()] and a ready snapshot, and the
    scheduler is registered only after the manager was constructed. *)
Lemma startup_order w :
  let tr := trace (fst (startup w)) in
  preceded_by connect_succeeded uses_transaction_manager tr /\
  preceded_by reports_ready uses_transaction_manager tr /\
  preceded_by constructs_manager is_cron_schedule tr.
Proof.
  exec_script; (split; [|split]); solve_preceded.
Qed.

(** A snapshot with a cleared flag ends the body with the not-ready error,
    before the manager is touched. *)
Lemma startup_not_ready w :
  let tr := trace (fst (startup w)) in
  Forall (fun e => reports_not_ready e = true ->
                   snd (startup w) = Throw (Error msg_not_ready) /\
                   Forall (fun e' => uses_transaction_manager e' = false) tr /\
                   Forall (fun e' => is_cron_schedule e' = false) tr)
         tr.
Proof.
  exec_script; solve_forall; intros H; try discriminate H;
    (split; [reflexivity | split; solve_forall; reflexivity]).
Qed.

(** A throwing [connect()] ends the body with the connection error; no
    timer is registered. *)
Lemma startup_connect_threw w :
  let tr := trace (fst (startup w)) in
  Forall (fun e => connect_threw e = true ->
                   snd (startup w) = Throw (Error msg_connection) /\
                   Forall (fun e' => is_cron_schedule e' = false /\
                                     is_transfer e' = false /\
                                     e' <> Log msg_running) tr)
         tr.
Proof.
  exec_script; solve_forall; intros H; try discriminate H;
    (split; [reflexivity | solve_forall; repeat split; discriminate]).
Qed.

(** What holds once the body has completed. *)
Lemma startup_completed w :
  snd (startup w) = Normal tt ->
  let p := fst (startup w) in
  rpcConnected p = true /\
  (exists tm, transactionManager p = Some tm) /\
  Exists (fun e => connect_succeeded e = true) (trace p) /\
  Exists (fun e => reports_ready e = true) (trace p) /\
  Exists (fun e => constructs_manager e = true) (trace p) /\
  Forall (fun e => reports_not_ready e = false /\ connect_threw e = false)
         (trace p) /\
  In (CronSchedule (cron_expression w)) (trace p) /\
  inputs_set w /\
  out_of_range (paymentInterval w) = false.
Proof.
  exec_script; intros H; try discriminate H;
    (split; [reflexivity|]); (split; [eexists; reflexivity|]);
    (split; [solve_exists|]); (split; [solve_exists|]);
    (split; [solve_exists|]);
    (split; [solve_forall; split; reflexivity|]);
    (split; [simpl; tauto|]); split; reflexivity.
Qed.

(** A run either stops with the exception of the module body, or is the
    completed body followed by callback events. *)
Lemma run_split w fs :
  (exists e, snd (startup w) = Throw e /\ run w fs = startup w) \/
  (exists evs, snd (startup w) = Normal tt /\
               run w fs = (extend (fst (startup w)) evs, Normal tt) /\
               Forall (fun e => is_callback_event e = true) evs).
Proof.
  unfold run, startup, process, bind.
  destruct (main w proc0) as [p0 [[]|e]] eqn:E; simpl.
  - right. destruct (event_loop_run w fs p0) as (evs & E2 & F).
    exists evs. now rewrite E2.
  - left. now exists e.
Qed.

(** The state a callback finds: the gate is open and the manager is set. *)
Lemma run_completed w fs :
  snd (run w fs) = Normal tt ->
  rpcConnected (fst (run w fs)) = true /\
  exists tm, transactionManager (fst (run w fs)) = Some tm.
Proof.
  destruct (run_split w fs) as [(e & He & ->) | (evs & Hn & -> & _)].
  - rewrite He. discriminate.
  - intros _. simpl. destruct (startup_completed w Hn) as (Hc & Ht & _).
    now split.
Qed.

(* ===================================================================== *)
(** ** Lemmas on numbers *)
(* ===================================================================== *)

Lemma trunc_nonneg q : (0 <= q)%Q -> trunc q = Qfloor q.
Proof.
  destruct q as [n d]. unfold trunc, Qfloor, Qle; simpl. intros H.
  apply Z.quot_div_nonneg; lia.
Qed.

Lemma trunc_nonpos q : (q <= 0)%Q -> trunc q = Qceiling q.
Proof.
  destruct q as [n d]. unfold trunc, Qceiling, Qfloor, Qle, Qopp; simpl.
  intros H.
  replace n with (- - n)%Z at 1 by lia.
  rewrite Z.quot_opp_l by lia.
  f_equal. apply Z.quot_div_nonneg; lia.
Qed.

Lemma trunc_comp q q' : (q == q')%Q -> trunc q = trunc q'.
Proof.
  intros E. destruct (Qlt_le_dec q 0) as [Hneg|Hpos].
  - rewrite !trunc_nonpos.
    + now rewrite E.
    + rewrite <- E. now apply Qlt_le_weak.
    + now apply Qlt_le_weak.
  - rewrite !trunc_nonneg.
    + now rewrite E.
    + now rewrite <- E.
    + assumption.
Qed.

Lemma rem_comp a a' b b' :
  (a == a')%Q -> (b == b')%Q -> (rem a b == rem a' b')%Q.
Proof.
  intros Ea Eb. unfold rem.
  rewrite (trunc_comp (a / b) (a' / b')) by now rewrite Ea, Eb.
  now rewrite Ea, Eb.
Qed.

Lemma or_default_set v q d :
  v = Some q -> ~ (q == 0)%Q -> or_default v d = q.
Proof.
  intros -> H. unfold or_default.
  destruct (Qeq_bool q 0) eqn:E; [|reflexivity].
  apply Qeq_bool_iff in E. contradiction.
Qed.

Lemma or_default_zero v q d :
  v = Some q -> (q == 0)%Q -> or_default v d = d.
Proof.
  intros -> H. unfold or_default.
  now rewrite (proj2 (Qeq_bool_iff q 0) H).
Qed.

Lemma out_of_range_iff i :
  out_of_range i = true <-> (i < 1 \/ 24 < i)%Q.
Proof.
  unfold out_of_range, lt. rewrite orb_true_iff, !negb_true_iff.
  rewrite <- !not_true_iff_false, !Qle_bool_iff.
  split; (intros [H|H]; [left|right]);
    solve [now apply Qnot_le_lt | now apply Qlt_not_le].
Qed.

Lemma in_range_iff i :
  out_of_range i = false <-> (1 <= i <= 24)%Q.
Proof.
  rewrite <- not_true_iff_false, out_of_range_iff. split.
  - intros H; split; apply Qnot_lt_le; intros C; apply H; auto.
  - intros [H1 H2] [C|C]; [now apply (Qlt_not_le _ _ C) | now apply (Qlt_not_le _ _ C)].
Qed.

(** A number equal to an integer has that integer as its floor. *)
Lemma Qfloor_integer q n : (q == inject_Z n)%Q -> Qfloor q = n.
Proof. intros E. rewrite (Qfloor_comp _ _ E). apply Qfloor_Z. Qed.

Lemma is_integer_of_Z q n : (q == inject_Z n)%Q -> is_integer q.
Proof. intros E. unfold is_integer. now rewrite (Qfloor_integer q n E). Qed.

(** The count in effect is never 0, so the division is defined and the
    interval, the divisor of the remainder in the progress indicator, is
    not 0 either. *)
Lemma payoutsPerDay_nonzero w : ~ (payoutsPerDay w == 0)%Q.
Proof.
  unfold payoutsPerDay, or_default.
  destruct (config_payoutsPerDay w) as [q|]; [|discriminate].
  destruct (Qeq_bool q 0) eqn:E; [discriminate|].
  intros C. apply Qeq_bool_iff in C. congruence.
Qed.

Lemma paymentInterval_nonzero w : ~ (paymentInterval w == 0)%Q.
Proof.
  unfold paymentInterval. intros C.
  pose proof (payoutsPerDay_nonzero w) as Hnz.
  assert (H24 : (24 == 0)%Q).
  { setoid_replace 24%Q with (24 / payoutsPerDay w * payoutsPerDay w)%Q
      by (field; assumption).
    rewrite C. ring. }
  discriminate H24.
Qed.

Lemma paymentInterval_of_count w d :
  (0 < d)%Z -> (d | 24)%Z -> (payoutsPerDay w == inject_Z d)%Q ->
  (paymentInterval w == inject_Z (24 / d))%Q.
Proof.
  intros Hd [k Hk] E. unfold paymentInterval. rewrite E.
  assert (Hq : (24 / d)%Z = k) by (rewrite Hk; apply Z.div_mul; lia).
  rewrite Hq.
  change 24%Q with (inject_Z 24). rewrite Hk, inject_Z_mult.
  field. intros C. unfold Qeq in C; simpl in C. lia.
Qed.

Lemma paymentInterval_12 w :
  (payoutsPerDay w == 2)%Q -> (paymentInterval w == 12)%Q.
Proof.
  intros E. apply (paymentInterval_of_count w 2); [lia | now exists 12%Z | exact E].
Qed.

(** *** The progress indicator *)

Lemma nextTransferHours_comp w i h :
  (paymentInterval w == i)%Q ->
  (nextTransferHours w h == i - rem (inject_Z h) i)%Q.
Proof.
  intros E. unfold nextTransferHours.
  rewrite (rem_comp _ (inject_Z h) _ i (Qeq_refl _) E). now rewrite E.
Qed.

Lemma remainingTime_top_of_hour w h : remainingTime w h 0 = 0%Q.
Proof.
  unfold remainingTime, remainingMinutes, strict_eq.
  assert (E : Qeq_bool (nextTransferHours w h * 60 - inject_Z 0)
                       (nextTransferHours w h * 60) = true).
  { apply Qeq_bool_iff. change (inject_Z 0) with 0%Q. ring. }
  now rewrite E.
Qed.

Lemma remainingTime_within_hour w h m :
  m <> 0%Z -> remainingTime w h m = remainingMinutes w h m.
Proof.
  intros Hm. unfold remainingTime, strict_eq.
  destruct (Qeq_bool (remainingMinutes w h m) (nextTransferHours w h * 60))
    eqn:E; [|reflexivity].
  exfalso. apply Qeq_bool_iff in E. unfold remainingMinutes in E.
  assert (Hz : (inject_Z m == 0)%Q).
  { setoid_replace (inject_Z m)
      with (nextTransferHours w h * 60
            - (nextTransferHours w h * 60 - inject_Z m))%Q by ring.
    rewrite E. ring. }
  unfold Qeq in Hz; simpl in Hz. lia.
Qed.

(** *** The cron expression *)





(** *** The interval check *)

Lemma startup_out_of_range w :
  out_of_range (paymentInterval w) = true ->
  (exists e, snd (startup w) = Throw e) /\
  (inputs_set w -> snd (startup w) = Throw (Error msg_paymentInterval)) /\
  Forall (fun e => is_log_line e = true) (trace (fst (startup w))).
Proof.
  exec_script; intros H; try discriminate H;
    (split; [eexists; reflexivity|]);
    (split; [intros H'; solve [reflexivity | discriminate H'] |]);
    solve_forall; reflexivity.
Qed.

Lemma startup_in_range w :
  out_of_range (paymentInterval w) = false -> inputs_set w ->
  In (RpcConnect (rpc_connect w)) (trace (fst (startup w))).
Proof.
  exec_script; intros H H'; try discriminate H; try discriminate H';
    simpl; tauto.
Qed.

(* ===================================================================== *)
(** ** Further lemmas on the module body and the event loop *)
(* ===================================================================== *)

Lemma count_app kind l1 l2 :
  count kind (l1 ++ l2) = (count kind l1 + count kind l2)%nat.
Proof. unfold count. now rewrite filter_app, length_app. Qed.

Lemma count_none kind l :
  Forall (fun e => kind e = false) l -> count kind l = 0%nat.
Proof.
  unfold count. induction 1 as [|e l He _ IH]; simpl; [reflexivity|].
  now rewrite He.
Qed.

(** A suffix of a concrete trace. *)
Ltac solve_ends_with :=
  match goal with
  | |- ends_with ?s ?l =>
      exists (firstn (List.length l - List.length s) l); reflexivity
  end.

(** The module body completes when nothing it checks or calls fails. *)
Lemma startup_when_can_start w :
  can_start w -> snd (startup w) = Normal tt.
Proof.
  unfold can_start, node_ready.
  exec_script; intros (Hi & Hr & Hc & (info & Hs & Hy & Hu) & Hn);
    try discriminate; try reflexivity;
    injection Hs as <-; discriminate.
Qed.

(** What a completed module body has done. *)
Lemma startup_completed_world w :
  snd (startup w) = Normal tt ->
  can_start w /\
  (forall key net db,
      env_TREASURY_PRIVATE_KEY w = Some key -> config_network w = Some net ->
      env_DATABASE_URL w = Some db ->
      transactionManager (fst (startup w)) =
        Some (mkTrxManager net key db) /\
      In (NewRpcClient net) (trace (fst (startup w))) /\
      In (NewTrxManager (mkTrxManager net key db) None)
         (trace (fst (startup w)))) /\
  ends_with (registration w) (trace (fst (startup w))).
Proof.
  unfold can_start, node_ready, registration.
  exec_script; intros H; try discriminate H;
    (split; [repeat split; eexists; repeat split; reflexivity|]);
    (split; [intros key net db [= <-] [= <-] [= <-];
             split; [reflexivity | split; simpl; tauto]|]);
    solve_ends_with.
Qed.

(** Every exception that ends the module body is one the script creates,
    or the one thrown by [getServerInfo()] or by [new trxManager(...)]. *)
Lemma startup_errors w e :
  snd (startup w) = Throw e ->
  In e script_errors \/
  rpc_getServerInfo w = Throw e \/
  trxManager_new w = Some e.
Proof.
  exec_script; intros H; try discriminate H; injection H as <-;
    first [ right; left; reflexivity
          | right; right; reflexivity
          | left; simpl;
            solve [repeat (first [left; reflexivity | right])] ].
Qed.

(** An exception of [getServerInfo()] or of the constructor ends the
    module body as it is. *)
Lemma startup_collaborator_threw w :
  let p := fst (startup w) in
  Forall (fun ev =>
            (forall e, ev = RpcGetServerInfo (Throw e) ->
                       snd (startup w) = Throw e /\
                       rpcConnected p = false /\
                       transactionManager p = None /\
                       Forall (fun e' => uses_transaction_manager e' = false /\
                                         is_cron_schedule e' = false /\
                                         is_set_interval e' = false)
                              (trace p)) /\
            (forall tm e, ev = NewTrxManager tm (Some e) ->
                          snd (startup w) = Throw e /\
                          rpcConnected p = true /\
                          transactionManager p = None /\
                          Forall (fun e' => is_transfer e' = false /\
                                            is_cron_schedule e' = false /\
                                            is_set_interval e' = false)
                                 (trace p)))
         (trace p).
Proof.
  exec_script; solve_forall;
    (split; [intros x H | intros y x H]); try discriminate H;
    injection H as <-; subst;
    repeat split; solve_forall; repeat split; reflexivity.
Qed.

(** Each startup call is made at most once, in a fixed order, and the
    module body never calls [transferBalances()]. *)
Lemma startup_discipline w :
  let tr := trace (fst (startup w)) in
  (count is_new_client tr <= 1 /\ count is_connect tr <= 1 /\
   count is_server_info tr <= 1 /\ count is_new_manager tr <= 1 /\
   count is_cron_schedule tr <= 1 /\ count is_set_interval tr <= 1)%nat /\
  count is_transfer tr = 0%nat /\
  preceded_by is_new_client is_connect tr /\
  preceded_by connect_succeeded is_server_info tr /\
  preceded_by is_cron_schedule is_set_interval tr.
Proof.
  exec_script;
    (split; [repeat split; cbv; lia|]); (split; [reflexivity|]);
    (split; [|split]); solve_preceded.
Qed.

(** Without debug mode the module body writes no debug line. *)
Lemma startup_quiet w :
  DEBUG w = false ->
  Forall (fun e => is_debug e = false) (trace (fst (startup w))).
Proof.
  exec_script; intros H; try discriminate H; solve_forall; reflexivity.
Qed.

(** *** Firings after a completed module body *)

Lemma scheduled_events_open p r tm :
  rpcConnected p = true -> transactionManager p = Some tm ->
  count is_transfer (scheduled_events p r) = 1%nat /\
  (forall tm' r', In (TransferBalances tm' r') (scheduled_events p r) ->
                  tm' = tm /\ r' = r) /\
  Forall (fun e => is_debug e = false) (scheduled_events p r).
Proof.
  intros Hc Ht. unfold scheduled_events. rewrite Hc, Ht.
  destruct r as [[]|e]; (split; [reflexivity|]);
    (split; [|repeat (apply Forall_cons; [reflexivity|]); apply Forall_nil]);
    intros tm' r' H; simpl in H;
    repeat (destruct H as [H|H]; try discriminate H; try contradiction);
    injection H as <- <-; now split.
Qed.

Lemma event_loop_open w fs p tm :
  rpcConnected p = true -> transactionManager p = Some tm ->
  exists evs,
    event_loop w fs p = (extend p evs, Normal tt) /\
    Forall (fun e => is_callback_event e = true) evs /\
    count is_transfer evs = scheduled_firings fs /\
    (forall tm' r, In (TransferBalances tm' r) evs -> tm' = tm) /\
    (DEBUG w = false -> Forall (fun e => is_debug e = false) evs).
Proof.
  revert p; induction fs as [|f fs IH]; intros p Hc Ht.
  - exists []. simpl. rewrite extend_nil.
    repeat split; try constructor. intros ? ? [].
  - destruct (IH (extend p (match f with
                            | Scheduled r => scheduled_events p r
                            | Progress h m =>
                                if DEBUG w then [progress_line w h m] else []
                            end)) Hc Ht)
      as (l2 & E2 & F2 & C2 & T2 & D2).
    destruct f as [r|h m]; simpl event_loop; unfold bind, fire.
    + rewrite scheduled_callback_run, E2, extend_extend.
      destruct (scheduled_events_open p r tm Hc Ht) as (C1 & T1 & D1).
      exists (scheduled_events p r ++ l2). split; [reflexivity|].
      split; [apply Forall_app; split;
              [apply scheduled_events_callback | assumption]|].
      split; [rewrite count_app, C1, C2; reflexivity|].
      split.
      * intros tm' r' Hin. apply in_app_or in Hin as [Hin|Hin];
          [now destruct (T1 _ _ Hin) | now apply (T2 _ _ Hin)].
      * intros Hd. apply Forall_app; split; [assumption | now apply D2].
    + unfold progress_callback. rewrite debug_run.
      fold (progress_line w h m). rewrite E2, extend_extend.
      eexists. split; [reflexivity|].
      split; [apply Forall_app; split;
              [destruct (DEBUG w); repeat constructor | assumption]|].
      split; [rewrite count_app, C2; now destruct (DEBUG w)|].
      split.
      * intros tm' r' Hin. apply in_app_or in Hin as [Hin|Hin];
          [|now apply (T2 _ _ Hin)].
        destruct (DEBUG w); simpl in Hin;
          [destruct Hin as [Hin|[]]; discriminate Hin | contradiction].
      * intros Hd. apply Forall_app; split; [|now apply D2].
        rewrite Hd. constructor.
Qed.

(** *** Integer intervals *)

Lemma rem_integers h n :
  (0 <= h)%Z -> (0 < n)%Z ->
  (rem (inject_Z h) (inject_Z n) == inject_Z (h mod n))%Q.
Proof.
  intros Hh Hn. unfold rem.
  assert (Hq : (0 <= inject_Z h / inject_Z n)%Q).
  { apply Qle_shift_div_l.
    - unfold Qlt; simpl; lia.
    - unfold Qle; simpl; lia. }
  rewrite (trunc_nonneg _ Hq), <- Zdiv_Qdiv.
  rewrite (Z.mod_eq h n) by lia.
  unfold Qeq; simpl. lia.
Qed.

Lemma nextTransferHours_integers w n h :
  (paymentInterval w == inject_Z n)%Q -> (0 <= h)%Z -> (0 < n)%Z ->
  (nextTransferHours w h == inject_Z (n - h mod n))%Q.
Proof.
  intros E Hh Hn.
  rewrite (nextTransferHours_comp w (inject_Z n) h E).
  rewrite (rem_integers h n Hh Hn).
  unfold Qeq; simpl. lia.
Qed.

(** The interval is in range exactly when the count is. *)
Lemma in_range_count w :
  out_of_range (paymentInterval w) = false <->
  (1 <= payoutsPerDay w <= 24)%Q.
Proof.
  rewrite in_range_iff.
  pose proof (payoutsPerDay_nonzero w) as Hnz.
  assert (E : (paymentInterval w * payoutsPerDay w == 24)%Q)
    by (unfold paymentInterval; field; exact Hnz).
  destruct (Qlt_le_dec 0 (payoutsPerDay w)) as [Hpos|Hneg].
  - split; intros [H1 H2]; split; nra.
  - assert (Hlt : (payoutsPerDay w < 0)%Q).
    { destruct (Qlt_le_dec (payoutsPerDay w) 0) as [H|H]; [exact H|].
      exfalso. apply Hnz. now apply Qle_antisym. }
    split; intros [H1 H2]; exfalso; nra.
Qed.

(** An exception ends the module body before any timer is registered. *)
Lemma startup_threw w e :
  snd (startup w) = Throw e ->
  Forall (fun e' => is_cron_schedule e' = false /\
                    is_set_interval e' = false /\
                    is_transfer e' = false)
         (trace (fst (startup w))).
Proof.
  exec_script; intros H; try discriminate H;
    solve_forall; repeat split; reflexivity.
Qed.

(** Callback events are none of the startup calls. *)
Lemma callback_not_startup_call evs :
  Forall (fun e => is_callback_event e = true) evs ->
  Forall (fun e => is_new_client e = false /\ is_connect e = false /\
                   is_server_info e = false /\ is_new_manager e = false /\
                   is_cron_schedule e = false /\ is_set_interval e = false)
         evs.
Proof.
  apply Forall_impl. intros [] H; try discriminate H; repeat split.
Qed.

(** *** Log lines do not depend on the secrets *)

Lemma fire_events w f p :
  fire w f p = (extend p (firing_events w p f), Normal tt).
Proof.
  destruct f as [r|h m]; simpl.
  - apply scheduled_callback_run.
  - unfold progress_callback. now rewrite debug_run.
Qed.

Lemma event_loop_with_secrets w key gw db fs :
  event_loop (with_secrets w key gw db) fs = event_loop w fs.
Proof.
  induction fs as [|f fs IH]; simpl; [reflexivity|].
  rewrite IH. destruct f; reflexivity.
Qed.

Lemma firing_log_lines w f p1 p2 :
  rpcConnected p1 = rpcConnected p2 ->
  (transactionManager p1 = None <-> transactionManager p2 = None) ->
  log_lines (firing_events w p1 f) = log_lines (firing_events w p2 f).
Proof.
  intros Hc Ht. destruct f as [r|h m]; simpl; [|reflexivity].
  unfold scheduled_events. rewrite <- Hc.
  destruct (rpcConnected p1); [|reflexivity].
  destruct (transactionManager p1) as [t1|], (transactionManager p2) as [t2|].
  - now destruct r.
  - discriminate (proj2 Ht eq_refl).
  - discriminate (proj1 Ht eq_refl).
  - reflexivity.
Qed.

Lemma event_loop_log_lines w fs p1 p2 :
  rpcConnected p1 = rpcConnected p2 ->
  (transactionManager p1 = None <-> transactionManager p2 = None) ->
  log_lines (trace p1) = log_lines (trace p2) ->
  log_lines (trace (fst (event_loop w fs p1))) =
  log_lines (trace (fst (event_loop w fs p2))) /\
  snd (event_loop w fs p1) = snd (event_loop w fs p2).
Proof.
  revert p1 p2. induction fs as [|f fs IH]; intros p1 p2 Hc Ht Hl; simpl.
  - now split.
  - unfold bind. rewrite !fire_events.
    apply IH; simpl; try assumption.
    unfold log_lines in *. rewrite !filter_app, Hl. f_equal.
    now apply firing_log_lines.
Qed.

Lemma startup_with_secrets w k1 g1 d1 k2 g2 d2 :
  k1 <> "" -> g1 <> "" -> d1 <> "" -> k2 <> "" -> g2 <> "" -> d2 <> "" ->
  let r1 := startup (with_secrets w k1 g1 d1) in
  let r2 := startup (with_secrets w k2 g2 d2) in
  log_lines (trace (fst r1)) = log_lines (trace (fst r2)) /\
  snd r1 = snd r2 /\
  rpcConnected (fst r1) = rpcConnected (fst r2) /\
  (transactionManager (fst r1) = None <-> transactionManager (fst r2) = None).
Proof.
  intros Hk1 Hg1 Hd1 Hk2 Hg2 Hd2.
  apply String.eqb_neq in Hk1, Hg1, Hd1, Hk2, Hg2, Hd2.
  destruct w as [dbg key gw db net cnt node rc ri tn].
  unfold with_secrets. unfold_script.
  unfold DEBUG, cron_expression, paymentInterval, payoutsPerDay.
  cbn [env_DEBUG env_TREASURY_PRIVATE_KEY env_PUSHGATEWAY env_DATABASE_URL
       config_network config_payoutsPerDay config_node rpc_connect
       rpc_getServerInfo trxManager_new].
  rewrite Hk1, Hg1, Hd1, Hk2, Hg2, Hd2.
  split_script;
    (split; [reflexivity|]); (split; [reflexivity|]);
    (split; [reflexivity|]); split; intros H; solve [reflexivity | discriminate H].
Qed.

(** For a whole interval the instants the specification names are those
    of the hour step. *)
Lemma on_multiple_integer w n t :
  (paymentInterval w == inject_Z n)%Q -> (0 < n)%Z -> (0 <= Cron.hour t)%Z ->
  on_multiple w t = ((Cron.minute t =? 0)%Z && (Cron.hour t mod n =? 0)%Z).
Proof.
  intros E Hn Hh. unfold on_multiple. f_equal.
  pose proof (rem_comp _ (inject_Z (Cron.hour t)) _ (inject_Z n)
                       (Qeq_refl _) E) as Hr.
  rewrite (rem_integers _ n Hh Hn) in Hr.
  destruct (Z.eqb_spec (Cron.hour t mod n) 0) as [Hz|Hz].
  - apply Qeq_bool_iff. rewrite Hr, Hz. reflexivity.
  - apply not_true_iff_false. intros C. apply Qeq_bool_iff in C.
    rewrite Hr in C. unfold Qeq in C; simpl in C. lia.
Qed.

(* ===================================================================== *)
(** ** Runs on sample worlds *)
(* ===================================================================== *)

Example startup_world_quiet :
  startup world_quiet =
  (mkProc
     [Log [Str "Main: Starting katpool Payment App"];
      NewRpcClient "mainnet";
      RpcConnect (Normal tt);
      RpcGetServerInfo (Normal (mkServerInfo true true));
      NewTrxManager (mkTrxManager "mainnet" "key" "postgres://db") None;
      CronSchedule [Str "0 */"; Num (24 / 2); Str " * * *"];
      SetInterval 600000;
      Log [Str "Main: Scheduled balance transfer every "; Num (24 / 2);
           Str " hours"]]
     (Some (mkTrxManager "mainnet" "key" "postgres://db"))
     true,
   Normal tt).
Proof. reflexivity. Qed.

Example startup_world_no_database :
  startup world_no_database =
  (mkProc [Log [Str "Main: Starting katpool Payment App"]] None false,
   Throw (Error "Environment variable DATABASE_URL is not set.")).
Proof. reflexivity. Qed.

Example failed_transfer_is_logged :
  trace (fst (scheduled_callback failed_transfer
                (mkProc [] (Some (mkTrxManager "mainnet" "key" "db")) true))) =
  [Log [Str "Main: Running scheduled balance transfer"];
   TransferBalances (mkTrxManager "mainnet" "key" "db") failed_transfer;
   ErrorLog [Str "Main: Transaction manager error: ";
             Str "Error: insufficient funds"]].
Proof. reflexivity. Qed.

(** When [new trxManager(...)] throws, the gate is already open and
    [transactionManager] is still [null]; the exception ends the module
    body, so no timer is registered in that state. *)
Example constructor_failure_leaves_no_timer :
  rpcConnected (fst (startup world_bad_key)) = true /\
  transactionManager (fst (startup world_bad_key)) = None /\
  snd (startup world_bad_key) = Throw (Error "invalid private key") /\
  existsb is_cron_schedule (trace (fst (startup world_bad_key))) = false.
Proof. vm_compute. repeat split. Qed.

Example cron_expression_world_ok :
  render (cron_expression world_ok) = Some "0 */12 * * *".
Proof. reflexivity. Qed.

Example cron_fires_at_noon :
  Cron.fires_at (cron_expression world_ok) noon = Some true /\
  Cron.fires_at (cron_expression world_ok) one_pm = Some false.
Proof. split; reflexivity. Qed.

Example remaining_time_world_ok :
  (remainingTime world_ok 14 5 == 595)%Q /\
  (remainingTime world_ok 23 50 == 10)%Q /\
  (remainingTime world_ok 0 0 == 0)%Q.
Proof. repeat split. Qed.

(* ===================================================================== *)
(** ** The properties *)
(* ===================================================================== *)

(** *** Required inputs *)

(** C5: when one of the four required inputs (treasury key, network,
    push-gateway address, database address) is missing, the module body
    ends with a fatal error whose message belongs to a missing input (the
    first missing one in script order, hence the input itself when all
    earlier ones are set) and names it; the four messages are pairwise
    distinct; and the trace holds log lines only, so [rpc.connect()] has
    not been called. *)
Theorem missing_required_input_is_fatal (w : World) (i : required) :
  missing w i = true ->
  exists j,
    missing w j = true /\
    ((forall k, (position k < position i)%nat -> missing w k = false) ->
     j = i) /\
    snd (startup w) = Throw (Error (message_of j)) /\
    mentions (name_of j) (message_of j) = true /\
    (forall k, message_of k = message_of j -> k = j) /\
    Forall (fun e => is_log_line e = true) (trace (fst (startup w))) /\
    (forall r, ~ In (RpcConnect r) (trace (fst (startup w)))).
Proof.
  intros Hi.
  destruct (first_missing_exists w i Hi) as (j & Hj & Hle).
  destruct (first_missing_least w j Hj) as (Hmiss & Hleast).
  destruct (startup_first_missing w j Hj) as (Hthrow & Hlog).
  exists j. repeat split; try assumption.
  - intros Hearlier. apply position_inj.
    destruct (Nat.eq_dec (position j) (position i)) as [E|N]; [exact E|].
    assert (Hlt : (position j < position i)%nat) by lia.
    rewrite (Hearlier j Hlt) in Hmiss. discriminate.
  - destruct j; reflexivity.
  - destruct j, k; intros H; solve [reflexivity | discriminate H].
  - intros r Hin. rewrite Forall_forall in Hlog.
    specialize (Hlog _ Hin). discriminate.
Qed.

Lemma missing_required_input_is_fatal_witness :
  exists j,
    missing world_no_database j = true /\
    ((forall k, (position k < position DatabaseUrl)%nat ->
                missing world_no_database k = false) -> j = DatabaseUrl) /\
    snd (startup world_no_database) = Throw (Error (message_of j)) /\
    mentions (name_of j) (message_of j) = true /\
    (forall k, message_of k = message_of j -> k = j) /\
    Forall (fun e => is_log_line e = true)
           (trace (fst (startup world_no_database))) /\
    (forall r, ~ In (RpcConnect r) (trace (fst (startup world_no_database)))).
Proof.
  apply (missing_required_input_is_fatal world_no_database DatabaseUrl).
  reflexivity.
Defined.

(** *** Connection and readiness *)

(** C1: in every run (the module body followed by any timer firings), an
    event that constructs or invokes the transaction manager comes after a
    successful [rpc.connect()] and after a [getServerInfo()] snapshot with
    [isSynced] and [hasUtxoIndex] both true; and when the snapshot has a
    flag cleared, the run ends with the not-ready error and contains no
    construction and no invocation of the transaction manager. *)
Theorem transaction_manager_needs_ready_node (w : World) (fs : list firing) :
  let tr := trace (fst (run w fs)) in
  preceded_by connect_succeeded uses_transaction_manager tr /\
  preceded_by reports_ready uses_transaction_manager tr /\
  (forall info,
      In (RpcGetServerInfo (Normal info)) tr ->
      isSynced info = false \/ hasUtxoIndex info = false ->
      snd (run w fs) = Throw (Error msg_not_ready) /\
      Forall (fun e => uses_transaction_manager e = false) tr).
Proof.
  destruct (startup_order w) as (Hc & Hr & _).
  pose proof (startup_not_ready w) as Hnr. cbv zeta in Hnr.
  rewrite Forall_forall in Hnr.
  assert (Hflag : forall info,
             isSynced info = false \/ hasUtxoIndex info = false ->
             reports_not_ready (RpcGetServerInfo (Normal info)) = true).
  { intros [[] []] [H|H]; solve [reflexivity | discriminate H]. }
  destruct (run_split w fs) as [(e & He & ->) | (evs & Hn & -> & Hcb)];
    cbv zeta; simpl fst; simpl snd.
  - repeat split; try assumption;
      destruct (Hnr _ H (Hflag _ H0)) as (? & ? & ?); assumption.
  - destruct (startup_completed w Hn)
      as (_ & _ & Hx1 & Hx2 & _ & Hall & _).
    apply Exists_exists in Hx1, Hx2.
    unfold extend; simpl trace.
    split; [now apply preceded_extend|].
    split; [now apply preceded_extend|].
    intros info Hin Hf. exfalso.
    apply in_app_or in Hin as [Hin|Hin].
    + rewrite Forall_forall in Hall. destruct (Hall _ Hin) as (Hno & _).
      rewrite (Hflag _ Hf) in Hno. discriminate.
    + rewrite Forall_forall in Hcb. specialize (Hcb _ Hin). discriminate.
Qed.

Lemma transaction_manager_needs_ready_node_witness :
  snd (run world_unsynced [Scheduled (Normal tt)]) = Throw (Error msg_not_ready) /\
  Forall (fun e => uses_transaction_manager e = false)
         (trace (fst (run world_unsynced [Scheduled (Normal tt)]))).
Proof.
  apply (transaction_manager_needs_ready_node world_unsynced
           [Scheduled (Normal tt)])
    with (info := mkServerInfo false true).
  - vm_compute. tauto.
  - left. reflexivity.
Defined.

(** C7: a run in which [rpc.connect()] threw ends with the fatal
    connection error, an uncaught exception with which the process exits
    with status 1; its trace contains no scheduler registration, no
    scheduled-run log line and no call of [transferBalances()]. *)
Theorem connect_failure_is_fatal (w : World) (fs : list firing) :
  Exists (fun e => connect_threw e = true) (trace (fst (run w fs))) ->
  snd (run w fs) = Throw (Error msg_connection) /\
  exit_status (snd (run w fs)) = Some 1%Z /\
  Forall (fun e => is_cron_schedule e = false /\
                   is_transfer e = false /\
                   e <> Log msg_running)
         (trace (fst (run w fs))).
Proof.
  intros Hex. apply Exists_exists in Hex as (e & Hin & He).
  pose proof (startup_connect_threw w) as Hct. cbv zeta in Hct.
  rewrite Forall_forall in Hct.
  destruct (run_split w fs) as [(x & Hx & Hrun) | (evs & Hn & Hrun & Hcb)];
    rewrite Hrun in *.
  - destruct (Hct _ Hin He) as (Hthrow & Hquiet).
    rewrite Hthrow. repeat split; assumption.
  - exfalso. simpl in Hin. apply in_app_or in Hin as [Hin|Hin].
    + destruct (startup_completed w Hn) as (_ & _ & _ & _ & _ & Hall & _).
      rewrite Forall_forall in Hall. destruct (Hall _ Hin) as (_ & Hno).
      congruence.
    + rewrite Forall_forall in Hcb. specialize (Hcb _ Hin).
      destruct e as [| | | |[]| | | | |]; discriminate.
Qed.

Lemma connect_failure_is_fatal_witness :
  snd (run world_refused [Scheduled (Normal tt)]) = Throw (Error msg_connection) /\
  exit_status (snd (run world_refused [Scheduled (Normal tt)])) = Some 1%Z /\
  Forall (fun e => is_cron_schedule e = false /\
                   is_transfer e = false /\
                   e <> Log msg_running)
         (trace (fst (run world_refused [Scheduled (Normal tt)]))).
Proof.
  apply (connect_failure_is_fatal world_refused [Scheduled (Normal tt)]).
  vm_compute. solve_exists.
Defined.

(** *** The scheduled callback *)

(** C2: a scheduled firing in a state where an open gate comes with a
    transaction manager (every state a callback can find, see
    [run_completed]) completes normally and leaves the module variables
    unchanged, so the firings that follow run as before.  With the gate
    open it logs the run, calls [transferBalances()] exactly once and, when
    the call throws, logs the error; with the gate closed it makes no call
    and logs that the connection is not established. *)
Theorem scheduled_firing_contract (r : completion unit) (p : proc) :
  manager_ready p ->
  exists evs,
    scheduled_callback r p = (extend p evs, Normal tt) /\
    (forall w fs,
        event_loop w (Scheduled r :: fs) p = event_loop w fs (extend p evs)) /\
    (rpcConnected p = true ->
     count_transfers evs = 1%nat /\
     (exists tm, transactionManager p = Some tm /\
                 In (TransferBalances tm r) evs) /\
     In (Log msg_running) evs /\
     (forall e, r = Throw e -> In (ErrorLog (msg_manager_error e)) evs) /\
     (forall u, r = Normal u ->
                Forall (fun e => e <> ErrorLog msg_not_established /\
                                 forall x, e <> ErrorLog (msg_manager_error x))
                       evs)) /\
    (rpcConnected p = false ->
     count_transfers evs = 0%nat /\
     evs = [ErrorLog msg_not_established]).
Proof.
  intros Hready. exists (scheduled_events p r).
  split; [apply scheduled_callback_run|].
  split.
  { intros w fs. simpl. unfold bind. now rewrite scheduled_callback_run. }
  unfold manager_ready in Hready. unfold scheduled_events.
  destruct (rpcConnected p); split; intros Hgate; try discriminate Hgate.
  - destruct (transactionManager p) as [tm|];
      [|now destruct (Hready eq_refl)].
    destruct r as [[]|e]; (split; [reflexivity|]);
      (split; [exists tm; split; [reflexivity | simpl; tauto]|]);
      (split; [simpl; tauto|]); split; intros x Hx; try discriminate Hx.
    + repeat constructor; discriminate.
    + injection Hx as <-. simpl; tauto.
  - split; reflexivity.
Qed.

Lemma scheduled_firing_contract_witness :
  exists evs,
    scheduled_callback failed_transfer
                       (fst (startup world_ok)) =
      (extend (fst (startup world_ok)) evs, Normal tt) /\
    (forall w fs,
        event_loop w (Scheduled failed_transfer :: fs)
                   (fst (startup world_ok)) =
        event_loop w fs (extend (fst (startup world_ok)) evs)) /\
    (rpcConnected (fst (startup world_ok)) = true ->
     count_transfers evs = 1%nat /\
     (exists tm, transactionManager (fst (startup world_ok)) = Some tm /\
                 In (TransferBalances tm failed_transfer)
                    evs) /\
     In (Log msg_running) evs /\
     (forall e, failed_transfer = Throw e ->
                In (ErrorLog (msg_manager_error e)) evs) /\
     (forall u, failed_transfer = Normal u ->
                Forall (fun e => e <> ErrorLog msg_not_established /\
                                 forall x, e <> ErrorLog (msg_manager_error x))
                       evs)) /\
    (rpcConnected (fst (startup world_ok)) = false ->
     count_transfers evs = 0%nat /\
     evs = [ErrorLog msg_not_established]).
Proof.
  apply (scheduled_firing_contract failed_transfer (fst (startup world_ok))).
  unfold manager_ready. vm_compute. discriminate.
Defined.

(** C10: whenever the module body has completed (the only case in which
    the scheduler is registered and a callback can run), then after any
    number of firings the gate is open and [transactionManager] holds an
    instance, so [transactionManager!.transferBalances()] reaches the
    collaborator instead of throwing on [null]; and in every run the
    scheduler is registered only after [new trxManager(...)] returned, which
    itself comes after the readiness check that opens the gate. *)
Theorem scheduled_transfer_has_manager (w : World) (fs : list firing) :
  (snd (run w fs) = Normal tt ->
   let p := fst (run w fs) in
   manager_ready p /\
   rpcConnected p = true /\
   exists tm,
     transactionManager p = Some tm /\
     forall r, call_transferBalances r p =
               (extend p [TransferBalances tm r], r)) /\
  preceded_by constructs_manager is_cron_schedule (trace (fst (run w fs))) /\
  preceded_by reports_ready constructs_manager (trace (fst (run w fs))).
Proof.
  split.
  - intros Hn. destruct (run_completed w fs Hn) as (Hgate & tm & Htm).
    cbv zeta. split; [|split].
    + intros _. rewrite Htm. discriminate.
    + assumption.
    + exists tm. split; [assumption|]. intros r.
      unfold call_transferBalances, get_transactionManager, bind, extern,
        extend.
      destruct (fst (run w fs)) as [tr m c]; simpl in *. now subst m.
  - destruct (startup_order w) as (_ & Hr & Hc).
    assert (Hr' : preceded_by reports_ready constructs_manager
                              (trace (fst (startup w)))).
    { intros l1 e l2 E Q. apply (Hr l1 e l2 E).
      destruct e; try discriminate Q. reflexivity. }
    destruct (run_split w fs) as [(e & He & ->) | (evs & Hn & -> & Hcb)].
    + now split.
    + simpl. split.
      * apply preceded_extend_quiet; [assumption|].
        now apply callback_not_cron.
      * apply preceded_extend_quiet; [assumption|].
        revert Hcb. apply Forall_impl.
        intros [] H; solve [reflexivity | discriminate H].
Qed.

Lemma scheduled_transfer_has_manager_witness :
  let p := fst (run world_ok [Scheduled (Normal tt); Progress 14 5]) in
  manager_ready p /\
  rpcConnected p = true /\
  exists tm,
    transactionManager p = Some tm /\
    forall r, call_transferBalances r p =
              (extend p [TransferBalances tm r], r).
Proof.
  apply (scheduled_transfer_has_manager
           world_ok [Scheduled (Normal tt); Progress 14 5]).
  reflexivity.
Defined.

(** *** The payment interval *)

(** C3, as stated, fails at a configured count of 0: the specification
    places its interval outside [1, 24], but [config.payoutsPerDay || 2]
    replaces the 0 by the default and the module body completes. *)
Lemma zero_payouts_is_not_rejected :
  config_payoutsPerDay world_zero = Some 0%Q /\
  interval_outside 0 /\
  inputs_set world_zero /\
  snd (startup world_zero) = Normal tt /\
  snd (startup world_zero) <> Throw (Error msg_paymentInterval).
Proof.
  split; [reflexivity|]. split; [left; reflexivity|].
  split; [reflexivity|]. vm_compute. split; [reflexivity | discriminate].
Qed.

(** C3 (amended): a configured count other than 0 whose interval
    [24 / count] lies outside [1, 24] stops the module body with an
    exception (the range error when the four required inputs are set)
    after log lines only, and no timer ever fires; a configured count of 0
    is replaced by the default 2, the interval is 12, the range check
    passes and, with the required inputs set, the body goes on to
    [rpc.connect()]. *)
Theorem out_of_range_payouts_rejected (w : World) (count : number) :
  config_payoutsPerDay w = Some count ->
  (~ (count == 0)%Q -> (24 / count < 1 \/ 24 < 24 / count)%Q ->
   (exists e, snd (startup w) = Throw e) /\
   (inputs_set w -> snd (startup w) = Throw (Error msg_paymentInterval)) /\
   Forall (fun e => is_log_line e = true) (trace (fst (startup w))) /\
   (forall fs, run w fs = startup w)) /\
  ((count == 0)%Q ->
   (paymentInterval w == 12)%Q /\
   out_of_range (paymentInterval w) = false /\
   (inputs_set w ->
    In (RpcConnect (rpc_connect w)) (trace (fst (startup w))))).
Proof.
  intros Hcfg. split.
  - intros Hnz Hout.
    assert (Hrange : out_of_range (paymentInterval w) = true).
    { apply out_of_range_iff. unfold paymentInterval, payoutsPerDay.
      now rewrite (or_default_set _ count 2 Hcfg Hnz). }
    destruct (startup_out_of_range w Hrange) as ((e & He) & Hmsg & Hlog).
    split; [now exists e|]. split; [assumption|]. split; [assumption|].
    intros fs.
    destruct (run_split w fs) as [(x & _ & Hrun) | (evs & Hn & _)];
      [assumption | congruence].
  - intros Hz.
    assert (E : (paymentInterval w == 12)%Q).
    { apply paymentInterval_12. unfold payoutsPerDay.
      rewrite (or_default_zero _ count 2 Hcfg Hz). reflexivity. }
    assert (Hin : out_of_range (paymentInterval w) = false).
    { apply in_range_iff. rewrite E. split; discriminate. }
    split; [assumption|]. split; [assumption|].
    intros Hset. now apply startup_in_range.
Qed.

Lemma out_of_range_payouts_rejected_witness :
  (exists e, snd (startup world_25) = Throw e) /\
  (inputs_set world_25 ->
   snd (startup world_25) = Throw (Error msg_paymentInterval)) /\
  Forall (fun e => is_log_line e = true) (trace (fst (startup world_25))) /\
  (forall fs, run world_25 fs = startup world_25).
Proof.
  apply (out_of_range_payouts_rejected world_25 25%Q).
  - reflexivity.
  - discriminate.
  - left. reflexivity.
Defined.

(** C4, as stated, fails at a configured count of 5: the interval is
    24/5 hours, which is not an integer, and the module body completes
    with it. *)
Lemma five_payouts_interval_is_fractional :
  config_payoutsPerDay world_five = Some 5%Q /\
  (paymentInterval world_five == 24 / 5)%Q /\
  ~ is_integer (paymentInterval world_five) /\
  snd (startup world_five) = Normal tt.
Proof.
  split; [reflexivity|]. split; [reflexivity|].
  split; [unfold is_integer; vm_compute; discriminate | vm_compute; reflexivity].
Qed.

(** C4 (amended): [paymentInterval] is 24 divided by the count in effect,
    which is 2 when [payoutsPerDay] is absent or 0 and the configured value
    otherwise; when that count is a positive integer dividing 24 (1, 2, 3,
    4, 6, 8, 12 or 24) the interval is the integer [24 / count], between 1
    and 24. *)
Theorem paymentInterval_is_24_over_count (w : World) :
  (paymentInterval w == 24 / payoutsPerDay w)%Q /\
  (config_payoutsPerDay w = None -> payoutsPerDay w = 2%Q) /\
  (forall q, config_payoutsPerDay w = Some q ->
             ((q == 0)%Q -> payoutsPerDay w = 2%Q) /\
             (~ (q == 0)%Q -> payoutsPerDay w = q)) /\
  (forall d : Z,
      (0 < d)%Z -> (d | 24)%Z -> (payoutsPerDay w == inject_Z d)%Q ->
      is_integer (paymentInterval w) /\
      (paymentInterval w == inject_Z (24 / d))%Q /\
      (1 <= 24 / d <= 24)%Z /\
      out_of_range (paymentInterval w) = false).
Proof.
  split; [reflexivity|].
  split; [intros H; unfold payoutsPerDay; now rewrite H|].
  split.
  - intros q Hq. unfold payoutsPerDay. split; intros H.
    + now apply or_default_zero with (q := q).
    + now apply or_default_set.
  - intros d Hd Hdiv E.
    pose proof (paymentInterval_of_count w d Hd Hdiv E) as Hi.
    assert (Hb : (1 <= 24 / d <= 24)%Z).
    { destruct Hdiv as [k Hk].
      assert (Hq : (24 / d)%Z = k) by (rewrite Hk; apply Z.div_mul; lia).
      rewrite Hq. nia. }
    split; [now apply is_integer_of_Z with (n := (24 / d)%Z)|].
    split; [assumption|]. split; [assumption|].
    apply in_range_iff. rewrite Hi.
    change 1%Q with (inject_Z 1). change 24%Q with (inject_Z 24).
    rewrite <- !Zle_Qle. assumption.
Qed.

Lemma paymentInterval_is_24_over_count_witness :
  is_integer (paymentInterval world_default) /\
  (paymentInterval world_default == inject_Z (24 / 2))%Q /\
  (1 <= 24 / 2 <= 24)%Z /\
  out_of_range (paymentInterval world_default) = false.
Proof.
  apply (paymentInterval_is_24_over_count world_default).
  - lia.
  - exists 12%Z. reflexivity.
  - reflexivity.
Defined.

(** *** The progress indicator *)

(** C6: with an interval of 12 hours the remaining time computed at 14:05
    is 595 minutes, and at 12:00, where the remaining minutes come to a full
    720, it is 0. *)
Theorem remaining_time_examples (w : World) :
  (paymentInterval w == 12)%Q ->
  (remainingTime w 14 5 == 595)%Q /\
  (remainingMinutes w 12 0 == 720)%Q /\
  remainingTime w 12 0 = 0%Q.
Proof.
  intros E.
  assert (H14 : (nextTransferHours w 14 == 10)%Q).
  { rewrite (nextTransferHours_comp w 12 14 E). reflexivity. }
  assert (H12 : (nextTransferHours w 12 == 12)%Q).
  { rewrite (nextTransferHours_comp w 12 12 E). reflexivity. }
  split; [|split].
  - rewrite remainingTime_within_hour by discriminate.
    unfold remainingMinutes. rewrite H14. reflexivity.
  - unfold remainingMinutes. rewrite H12. reflexivity.
  - apply remainingTime_top_of_hour.
Qed.

Lemma remaining_time_examples_witness :
  (remainingTime world_ok 14 5 == 595)%Q /\
  (remainingMinutes world_ok 12 0 == 720)%Q /\
  remainingTime world_ok 12 0 = 0%Q.
Proof.
  apply (remaining_time_examples world_ok). reflexivity.
Defined.

(** C9: at the top of any hour the progress indicator computes 0
    remaining minutes, whatever the hour and the interval; with an interval
    of 12 at 13:00 the remaining minutes are 660 and the reported time is
    0.  The test [remainingMinutes === nextTransferHours * 60] holds
    exactly when the minutes are 0: for any other minute the remaining
    minutes are reported as computed. *)
Theorem remaining_time_zero_at_top_of_hour (w : World) (hours : Z) :
  remainingTime w hours 0 = 0%Q /\
  (forall minutes, minutes <> 0%Z ->
                   remainingTime w hours minutes =
                   remainingMinutes w hours minutes) /\
  ((paymentInterval w == 12)%Q ->
   (remainingMinutes w 13 0 == 660)%Q /\ remainingTime w 13 0 = 0%Q).
Proof.
  split; [apply remainingTime_top_of_hour|].
  split; [intros m Hm; now apply remainingTime_within_hour|].
  intros E. split; [|apply remainingTime_top_of_hour].
  unfold remainingMinutes.
  rewrite (nextTransferHours_comp w 12 13 E). reflexivity.
Qed.

Lemma remaining_time_zero_at_top_of_hour_witness :
  (remainingMinutes world_ok 13 0 == 660)%Q /\
  remainingTime world_ok 13 0 = 0%Q.
Proof.
  apply (remaining_time_zero_at_top_of_hour world_ok 13). reflexivity.
Defined.

(** *** The schedule *)




(* ===================================================================== *)
(** ** Further properties of the script *)
(* ===================================================================== *)

(** *** The module body as a whole *)

(** X1: the module body completes exactly when the four required inputs
    are set, the interval is in range, [rpc.connect()] returns,
    [getServerInfo()] returns a snapshot with both flags set and
    [new trxManager(...)] returns. *)
Theorem startup_completes_iff (w : World) :
  (snd (startup w) = Normal tt <-> can_start w) /\
  (inputs_set w <-> forall i, missing w i = false).
Proof.
  split; split.
  - intros H. now destruct (startup_completed_world w H).
  - apply startup_when_can_start.
  - unfold inputs_set, first_missing. intros H i.
    destruct (missing w TreasuryKey) eqn:E0; [discriminate H|].
    destruct (missing w Network) eqn:E1; [discriminate H|].
    destruct (missing w PushGateway) eqn:E2; [discriminate H|].
    destruct (missing w DatabaseUrl) eqn:E3; [discriminate H|].
    now destruct i.
  - intros H. unfold inputs_set, first_missing. now rewrite !H.
Qed.

(** X2: a completed module body has created the RPC client for
    [config.network], has constructed the transaction manager from the
    network, the treasury key and the database address and stored it, has
    opened the gate, and ends with [cron.schedule], [setInterval] with a
    period of 600000 ms and the final log line, in this order. *)
Theorem completed_startup_effects (w : World) (key net db : string) :
  snd (startup w) = Normal tt ->
  env_TREASURY_PRIVATE_KEY w = Some key ->
  config_network w = Some net ->
  env_DATABASE_URL w = Some db ->
  rpcConnected (fst (startup w)) = true /\
  transactionManager (fst (startup w)) = Some (mkTrxManager net key db) /\
  In (NewRpcClient net) (trace (fst (startup w))) /\
  In (NewTrxManager (mkTrxManager net key db) None)
     (trace (fst (startup w))) /\
  ends_with (registration w) (trace (fst (startup w))).
Proof.
  intros H Hk Hn Hd.
  destruct (startup_completed_world w H) as (_ & Hv & He).
  destruct (Hv key net db Hk Hn Hd) as (Ht & Hc & Hm).
  destruct (startup_completed w H) as (Hr & _).
  repeat split; assumption.
Qed.

Lemma completed_startup_effects_witness :
  rpcConnected (fst (startup world_quiet)) = true /\
  transactionManager (fst (startup world_quiet)) =
    Some (mkTrxManager "mainnet" "key" "postgres://db") /\
  In (NewRpcClient "mainnet") (trace (fst (startup world_quiet))) /\
  In (NewTrxManager (mkTrxManager "mainnet" "key" "postgres://db") None)
     (trace (fst (startup world_quiet))) /\
  ends_with (registration world_quiet) (trace (fst (startup world_quiet))).
Proof.
  apply (completed_startup_effects world_quiet "key" "mainnet" "postgres://db");
    reflexivity.
Defined.

(** X3: whatever the timers do, an exception that ends the process is one
    of the seven errors the script creates at startup, or the exception
    thrown by [getServerInfo()], or the one thrown by
    [new trxManager(...)]. *)
Theorem fatal_errors_are_startup_errors (w : World) (fs : list firing)
    (e : exn) :
  snd (run w fs) = Throw e ->
  In e script_errors \/
  rpc_getServerInfo w = Throw e \/
  trxManager_new w = Some e.
Proof.
  destruct (run_split w fs) as [(x & Hx & ->) | (evs & _ & -> & _)].
  - apply startup_errors.
  - discriminate.
Qed.

Lemma fatal_errors_are_startup_errors_witness :
  In (Error msg_connection) script_errors \/
  rpc_getServerInfo world_refused = Throw (Error msg_connection) \/
  trxManager_new world_refused = Some (Error msg_connection).
Proof.
  apply (fatal_errors_are_startup_errors world_refused [Progress 0 10]).
  reflexivity.
Defined.

(** X4: an exception thrown by [rpc.getServerInfo()] is not caught: the
    run ends with that very exception, with the gate closed, no
    transaction manager, no timer registered and no callback run. *)
Theorem server_info_failure_propagates (w : World) (fs : list firing)
    (e : exn) :
  In (RpcGetServerInfo (Throw e)) (trace (fst (run w fs))) ->
  snd (run w fs) = Throw e /\
  rpcConnected (fst (run w fs)) = false /\
  transactionManager (fst (run w fs)) = None /\
  Forall (fun e' => uses_transaction_manager e' = false /\
                    is_cron_schedule e' = false /\
                    is_set_interval e' = false)
         (trace (fst (run w fs))).
Proof.
  intros Hin.
  pose proof (startup_collaborator_threw w) as Hs. cbv zeta in Hs.
  rewrite Forall_forall in Hs.
  destruct (run_split w fs) as [(x & Hx & Hrun) | (evs & Hn & Hrun & Hcb)];
    rewrite Hrun in *.
  - destruct (Hs _ Hin) as (H1 & _). now apply H1.
  - exfalso. simpl in Hin. apply in_app_or in Hin as [Hin|Hin].
    + destruct (Hs _ Hin) as (H1 & _).
      destruct (H1 e eq_refl) as (Ht & _). congruence.
    + rewrite Forall_forall in Hcb. specialize (Hcb _ Hin). discriminate.
Qed.

Lemma server_info_failure_propagates_witness :
  snd (run world_info_fails [Scheduled (Normal tt)]) =
    Throw (Error "request timeout") /\
  rpcConnected (fst (run world_info_fails [Scheduled (Normal tt)])) = false /\
  transactionManager (fst (run world_info_fails [Scheduled (Normal tt)])) =
    None /\
  Forall (fun e' => uses_transaction_manager e' = false /\
                    is_cron_schedule e' = false /\
                    is_set_interval e' = false)
         (trace (fst (run world_info_fails [Scheduled (Normal tt)]))).
Proof.
  apply (server_info_failure_propagates world_info_fails
           [Scheduled (Normal tt)] (Error "request timeout")).
  vm_compute. tauto.
Defined.

(** X5: an exception thrown by [new trxManager(...)] is not caught: the
    run ends with that very exception; the gate is already open but
    [transactionManager] is still [null], and no timer is registered, so
    no callback ever sees this state. *)
Theorem constructor_failure_propagates (w : World) (fs : list firing)
    (tm : trxManager) (e : exn) :
  In (NewTrxManager tm (Some e)) (trace (fst (run w fs))) ->
  snd (run w fs) = Throw e /\
  rpcConnected (fst (run w fs)) = true /\
  transactionManager (fst (run w fs)) = None /\
  Forall (fun e' => is_transfer e' = false /\
                    is_cron_schedule e' = false /\
                    is_set_interval e' = false)
         (trace (fst (run w fs))).
Proof.
  intros Hin.
  pose proof (startup_collaborator_threw w) as Hs. cbv zeta in Hs.
  rewrite Forall_forall in Hs.
  destruct (run_split w fs) as [(x & Hx & Hrun) | (evs & Hn & Hrun & Hcb)];
    rewrite Hrun in *.
  - destruct (Hs _ Hin) as (_ & H2). now apply (H2 tm).
  - exfalso. simpl in Hin. apply in_app_or in Hin as [Hin|Hin].
    + destruct (Hs _ Hin) as (_ & H2).
      destruct (H2 tm e eq_refl) as (Ht & _). congruence.
    + rewrite Forall_forall in Hcb. specialize (Hcb _ Hin). discriminate.
Qed.

Lemma constructor_failure_propagates_witness :
  snd (run world_bad_key [Scheduled (Normal tt)]) =
    Throw (Error "invalid private key") /\
  rpcConnected (fst (run world_bad_key [Scheduled (Normal tt)])) = true /\
  transactionManager (fst (run world_bad_key [Scheduled (Normal tt)])) =
    None /\
  Forall (fun e' => is_transfer e' = false /\
                    is_cron_schedule e' = false /\
                    is_set_interval e' = false)
         (trace (fst (run world_bad_key [Scheduled (Normal tt)]))).
Proof.
  apply (constructor_failure_propagates world_bad_key
           [Scheduled (Normal tt)]
           (mkTrxManager "mainnet" "key" "postgres://db")
           (Error "invalid private key")).
  vm_compute. tauto.
Defined.

(** X6: in every run the RPC client is created, [rpc.connect()] and
    [rpc.getServerInfo()] are called, the transaction manager is
    constructed and the two timers are registered at most once each: there
    is no retry and no second registration. *)
Theorem startup_calls_at_most_once (w : World) (fs : list firing) :
  let tr := trace (fst (run w fs)) in
  (count is_new_client tr <= 1 /\ count is_connect tr <= 1 /\
   count is_server_info tr <= 1 /\ count is_new_manager tr <= 1 /\
   count is_cron_schedule tr <= 1 /\ count is_set_interval tr <= 1)%nat.
Proof.
  destruct (startup_discipline w) as (Hcount & _).
  destruct (run_split w fs) as [(x & Hx & ->) | (evs & Hn & -> & Hcb)];
    cbv zeta; [exact Hcount|].
  apply callback_not_startup_call in Hcb.
  simpl. rewrite !count_app.
  assert (Z : (count is_new_client evs = 0 /\ count is_connect evs = 0 /\
               count is_server_info evs = 0 /\ count is_new_manager evs = 0 /\
               count is_cron_schedule evs = 0 /\
               count is_set_interval evs = 0)%nat).
  { repeat split; apply count_none; revert Hcb; apply Forall_impl;
      intros a H; apply H. }
  destruct Z as (-> & -> & -> & -> & -> & ->).
  rewrite !Nat.add_0_r. exact Hcount.
Qed.

(** X7: in every run [rpc.connect()] comes after the creation of the RPC
    client, [rpc.getServerInfo()] is called only after [rpc.connect()] has
    returned, and [setInterval] comes after [cron.schedule]. *)
Theorem startup_calls_in_order (w : World) (fs : list firing) :
  let tr := trace (fst (run w fs)) in
  preceded_by is_new_client is_connect tr /\
  preceded_by connect_succeeded is_server_info tr /\
  preceded_by is_cron_schedule is_set_interval tr.
Proof.
  destruct (startup_discipline w) as (_ & _ & H1 & H2 & H3).
  destruct (run_split w fs) as [(x & Hx & ->) | (evs & Hn & -> & Hcb)];
    cbv zeta; [now repeat split|].
  apply callback_not_startup_call in Hcb. simpl.
  repeat split; (apply preceded_extend_quiet; [assumption|]);
    revert Hcb; apply Forall_impl; intros a H; apply H.
Qed.

(** X8: when the module body fails, whatever the failure, no timer has
    been registered and nothing runs afterwards: the run is the failed
    module body, without any call of [transferBalances()]. *)
Theorem failed_startup_runs_nothing (w : World) (fs : list firing) (e : exn) :
  snd (startup w) = Throw e ->
  run w fs = startup w /\
  Forall (fun e' => is_cron_schedule e' = false /\
                    is_set_interval e' = false /\
                    is_transfer e' = false)
         (trace (fst (run w fs))).
Proof.
  intros H.
  destruct (run_split w fs) as [(x & Hx & Hrun) | (evs & Hn & _)];
    [|congruence].
  split; [assumption|]. rewrite Hrun. now apply (startup_threw w e).
Qed.

Lemma failed_startup_runs_nothing_witness :
  run world_unsynced [Scheduled (Normal tt); Progress 12 0] =
    startup world_unsynced /\
  Forall (fun e' => is_cron_schedule e' = false /\
                    is_set_interval e' = false /\
                    is_transfer e' = false)
         (trace (fst (run world_unsynced
                        [Scheduled (Normal tt); Progress 12 0]))).
Proof.
  apply (failed_startup_runs_nothing world_unsynced
           [Scheduled (Normal tt); Progress 12 0] (Error msg_not_ready)).
  reflexivity.
Defined.

(** *** The timer callbacks *)

(** X9: the scheduled callback never throws, in any state: it completes
    normally, leaves [rpcConnected] and [transactionManager] as they were,
    only appends to the trace and calls [transferBalances()] at most once.
    With the gate open and [transactionManager] still [null], the
    [TypeError] of the property access is caught like an error of the
    transfer: it is logged and no call is made. *)
Theorem scheduled_callback_never_throws (r : completion unit) (p : proc) :
  snd (scheduled_callback r p) = Normal tt /\
  rpcConnected (fst (scheduled_callback r p)) = rpcConnected p /\
  transactionManager (fst (scheduled_callback r p)) = transactionManager p /\
  (exists evs, trace (fst (scheduled_callback r p)) = trace p ++ evs /\
               (count is_transfer evs <= 1)%nat) /\
  (rpcConnected p = true -> transactionManager p = None ->
   trace (fst (scheduled_callback r p)) =
   trace p ++ [Log msg_running;
               ErrorLog (msg_manager_error (TypeError msg_null_deref))]).
Proof.
  rewrite scheduled_callback_run. simpl.
  repeat split.
  - exists (scheduled_events p r). split; [reflexivity|].
    unfold scheduled_events.
    destruct (rpcConnected p), (transactionManager p), r; cbv; lia.
  - intros Hc Ht. unfold scheduled_events. now rewrite Hc, Ht.
Qed.

Lemma scheduled_callback_never_throws_witness :
  trace (fst (scheduled_callback (Normal tt) (mkProc [] None true))) =
  [] ++ [Log msg_running;
         ErrorLog (msg_manager_error (TypeError msg_null_deref))].
Proof.
  apply (scheduled_callback_never_throws (Normal tt) (mkProc [] None true));
    reflexivity.
Defined.

(** X10: once the module body has completed, any sequence of timer
    firings leaves the process running with the gate open and the same
    transaction manager; [transferBalances()] has been called once per
    scheduled firing, whether or not earlier calls threw, and always on the
    instance constructed at startup. *)
Theorem firings_after_startup (w : World) (fs : list firing) :
  snd (startup w) = Normal tt ->
  snd (run w fs) = Normal tt /\
  rpcConnected (fst (run w fs)) = true /\
  transactionManager (fst (run w fs)) =
    transactionManager (fst (startup w)) /\
  count is_transfer (trace (fst (run w fs))) = scheduled_firings fs /\
  (forall tm r, In (TransferBalances tm r) (trace (fst (run w fs))) ->
                transactionManager (fst (startup w)) = Some tm).
Proof.
  intros Hn.
  destruct (startup_completed w Hn) as (Hc & (tm & Ht) & _).
  destruct (startup_discipline w) as (_ & Hz & _).
  destruct (event_loop_open w fs (fst (startup w)) tm Hc Ht)
    as (evs & Hrun & _ & Hcount & Hsame & _).
  assert (E : run w fs = (extend (fst (startup w)) evs, Normal tt)).
  { unfold run, process, bind. fold (startup w).
    destruct (startup w) as [p0 c0]. simpl in *. subst c0. exact Hrun. }
  rewrite E. simpl.
  split; [reflexivity|]. split; [assumption|]. split; [reflexivity|].
  split.
  - rewrite count_app, Hz, Hcount. reflexivity.
  - intros tm' r Hin. rewrite Ht. f_equal. symmetry.
    apply in_app_or in Hin as [Hin|Hin]; [|now apply (Hsame tm' r)].
    exfalso. assert (Hf : count is_transfer (trace (fst (startup w))) <> 0%nat);
      [|contradiction].
    apply in_split in Hin as (l1 & l2 & ->).
    rewrite count_app. unfold count at 2. simpl. lia.
Qed.

Lemma firings_after_startup_witness :
  snd (run world_ok [Scheduled failed_transfer; Progress 14 5;
                     Scheduled (Normal tt)]) = Normal tt /\
  rpcConnected (fst (run world_ok [Scheduled failed_transfer; Progress 14 5;
                                   Scheduled (Normal tt)])) = true /\
  transactionManager (fst (run world_ok [Scheduled failed_transfer;
                                         Progress 14 5;
                                         Scheduled (Normal tt)])) =
    transactionManager (fst (startup world_ok)) /\
  count is_transfer
        (trace (fst (run world_ok [Scheduled failed_transfer; Progress 14 5;
                                   Scheduled (Normal tt)]))) =
    scheduled_firings [Scheduled failed_transfer; Progress 14 5;
                       Scheduled (Normal tt)] /\
  (forall tm r,
      In (TransferBalances tm r)
         (trace (fst (run world_ok [Scheduled failed_transfer; Progress 14 5;
                                    Scheduled (Normal tt)]))) ->
      transactionManager (fst (startup world_ok)) = Some tm).
Proof.
  apply (firings_after_startup world_ok).
  reflexivity.
Defined.

(** X11: unless [process.env.DEBUG] is exactly ["1"], no run writes a
    debug line, and a firing of the progress indicator does nothing at
    all. *)
Theorem quiet_without_debug (w : World) (fs : list firing) :
  DEBUG w = false ->
  Forall (fun e => is_debug e = false) (trace (fst (run w fs))) /\
  (forall hours minutes p,
      progress_callback w hours minutes p = (p, Normal tt)).
Proof.
  intros Hd. split.
  - pose proof (startup_quiet w Hd) as Hs.
    destruct (run_split w fs) as [(x & Hx & ->) | (evs & Hn & Hrun & _)];
      [assumption|].
    destruct (startup_completed w Hn) as (Hc & (tm & Ht) & _).
    destruct (event_loop_open w fs (fst (startup w)) tm Hc Ht)
      as (evs' & Hloop & _ & _ & _ & Hq).
    assert (E : run w fs = (extend (fst (startup w)) evs', Normal tt)).
    { unfold run, process, bind. fold (startup w).
      destruct (startup w) as [p0 c0]. simpl in *. subst c0. exact Hloop. }
    rewrite E. simpl. apply Forall_app. split; [assumption | now apply Hq].
  - intros h m p. unfold progress_callback.
    rewrite debug_run, Hd. now rewrite extend_nil.
Qed.

Lemma quiet_without_debug_witness :
  Forall (fun e => is_debug e = false)
         (trace (fst (run world_quiet [Progress 14 5; Scheduled (Normal tt)]))) /\
  (forall hours minutes p,
      progress_callback world_quiet hours minutes p = (p, Normal tt)).
Proof.
  apply (quiet_without_debug world_quiet). reflexivity.
Defined.

(** *** The interval *)

(** X12: the range check on the interval accepts exactly the counts from
    1 to 24, fractional ones included; with the required inputs set, any
    other count in effect ends the module body with the range error. *)
Theorem interval_check_accepts_counts_1_to_24 (w : World) :
  (out_of_range (paymentInterval w) = false <->
   (1 <= payoutsPerDay w <= 24)%Q) /\
  (inputs_set w -> ~ (1 <= payoutsPerDay w <= 24)%Q ->
   snd (startup w) = Throw (Error msg_paymentInterval)).
Proof.
  split; [apply in_range_count|].
  intros Hset Hout.
  destruct (out_of_range (paymentInterval w)) eqn:E.
  - now destruct (startup_out_of_range w E) as (_ & H & _); apply H.
  - now apply in_range_count in E.
Qed.

Lemma interval_check_accepts_counts_1_to_24_witness :
  snd (startup world_25) = Throw (Error msg_paymentInterval).
Proof.
  destruct (interval_check_accepts_counts_1_to_24 world_25) as [_ H].
  apply H.
  - reflexivity.
  - intros [_ C]. apply C. reflexivity.
Defined.

(** X13: for an interval of [n] whole hours the progress indicator counts
    to the next multiple of [n] strictly after the current hour: the hours
    to go are [n - hours mod n], between 1 and [n]; and at any minute other
    than 0 the remaining time is that many hours less the minutes, more
    than 0 and less than [n] hours. *)
Theorem remaining_time_integer_interval (w : World) (n hours minutes : Z) :
  (paymentInterval w == inject_Z n)%Q ->
  (1 <= n)%Z -> (0 <= hours)%Z -> (1 <= minutes <= 59)%Z ->
  let k := (n - hours mod n)%Z in
  (nextTransferHours w hours == inject_Z k)%Q /\
  (1 <= k <= n)%Z /\
  ((hours + k) mod n = 0)%Z /\
  (forall j, (1 <= j < k)%Z -> ((hours + j) mod n <> 0)%Z) /\
  (remainingTime w hours minutes == inject_Z (k * 60 - minutes))%Q /\
  (0 < k * 60 - minutes < n * 60)%Z.
Proof.
  intros E Hn Hh Hm k.
  assert (Hk : (nextTransferHours w hours == inject_Z k)%Q)
    by (apply nextTransferHours_integers; [assumption | assumption | lia]).
  assert (Hmod : (0 <= hours mod n < n)%Z) by (apply Z.mod_pos_bound; lia).
  split; [assumption|]. split; [unfold k; lia|]. split.
  - replace (hours + k)%Z with ((hours / n + 1) * n)%Z.
    + apply Z.mod_mul. lia.
    + unfold k. pose proof (Z.div_mod hours n ltac:(lia)). lia.
  - split.
    { intros j Hj. unfold k in Hj.
      rewrite <- (Z.mod_unique (hours + j) n (hours / n) (hours mod n + j)).
      - lia.
      - left. lia.
      - pose proof (Z.div_mod hours n ltac:(lia)). lia. }
    split; [|unfold k; nia].
    rewrite remainingTime_within_hour by lia.
    unfold remainingMinutes. rewrite Hk.
    unfold Qeq; simpl. lia.
Qed.

Lemma remaining_time_integer_interval_witness :
  let k := (12 - 22 mod 12)%Z in
  (nextTransferHours world_ok 22 == inject_Z k)%Q /\
  (1 <= k <= 12)%Z /\
  ((22 + k) mod 12 = 0)%Z /\
  (forall j, (1 <= j < k)%Z -> ((22 + j) mod 12 <> 0)%Z) /\
  (remainingTime world_ok 22 40 == inject_Z (k * 60 - 40))%Q /\
  (0 < k * 60 - 40 < 12 * 60)%Z.
Proof.
  apply (remaining_time_integer_interval world_ok 12 22 40).
  - reflexivity.
  - lia.
  - lia.
  - lia.
Defined.

(** *** The secrets *)

(** X14: for given answers of the collaborators, the values of
    [TREASURY_PRIVATE_KEY], [PUSHGATEWAY] and [DATABASE_URL] (when set)
    influence neither the lines written to the log nor the way the run
    ends: two runs that differ only in these values write the same log
    lines in the same order and end alike. *)
Theorem secrets_reach_no_log_line (w : World) (fs : list firing)
    (k1 g1 d1 k2 g2 d2 : string) :
  k1 <> "" -> g1 <> "" -> d1 <> "" -> k2 <> "" -> g2 <> "" -> d2 <> "" ->
  log_lines (trace (fst (run (with_secrets w k1 g1 d1) fs))) =
  log_lines (trace (fst (run (with_secrets w k2 g2 d2) fs))) /\
  snd (run (with_secrets w k1 g1 d1) fs) =
  snd (run (with_secrets w k2 g2 d2) fs).
Proof.
  intros Hk1 Hg1 Hd1 Hk2 Hg2 Hd2.
  destruct (startup_with_secrets w k1 g1 d1 k2 g2 d2 Hk1 Hg1 Hd1 Hk2 Hg2 Hd2)
    as (Hl & Hs & Hc & Ht).
  unfold run, process, bind. rewrite !event_loop_with_secrets.
  unfold startup in *.
  destruct (main (with_secrets w k1 g1 d1) proc0) as [p1 c1].
  destruct (main (with_secrets w k2 g2 d2) proc0) as [p2 c2].
  simpl in *. subst c2.
  destruct c1 as [[]|e]; [|now split].
  now apply event_loop_log_lines.
Qed.

Lemma secrets_reach_no_log_line_witness :
  log_lines (trace (fst (run (with_secrets world_ok "key-one" "gw-one" "db-one")
                             [Scheduled failed_transfer; Progress 14 5]))) =
  log_lines (trace (fst (run (with_secrets world_ok "key-two" "gw-two" "db-two")
                             [Scheduled failed_transfer; Progress 14 5]))) /\
  snd (run (with_secrets world_ok "key-one" "gw-one" "db-one")
           [Scheduled failed_transfer; Progress 14 5]) =
  snd (run (with_secrets world_ok "key-two" "gw-two" "db-two")
           [Scheduled failed_transfer; Progress 14 5]).
Proof.
  apply (secrets_reach_no_log_line world_ok
           [Scheduled failed_transfer; Progress 14 5]);
    discriminate.
Defined.
